(** * YoLink Local: device-state reconciliation

    A shallow embedding of the state-reconciliation code of the YoLink Local
    integration:

    - [custom_components/yolocal/coordinator.py]: the event handler
      [_on_device_event] (THSensor merge and general merge), and the
      start-up path [create_coordinator];
    - [custom_components/yolocal/api/device.py]: [Device.from_api];
    - [custom_components/yolocal/api/mqtt.py]: [YoLinkMQTTClient.connect];
    - [custom_components/yolocal/entity.py]: [YoLocalEntity.available];
    - [yolink_tooling_common.py]: [normalize_event_payload], [merge_state],
      [model_num_from_app_eui], [normalize_display_type].

    Python dictionaries with string keys are finite maps ([gmap string _]):
    dictionary equality in Python ignores insertion order, and every loop
    over a dictionary in the modelled code writes each key at most once. *)

From Stdlib Require Import ZArith QArith.
From stdpp Require Import gmap strings list fin_maps.

Set Warnings "-register-all".
Open Scope Z_scope.

(** ** Python values, as produced by [json.loads] *)

Inductive value : Type :=
  | VNone
  | VBool (b : bool)
  | VInt (n : Z)
  | VFloat (q : Q)
  | VStr (s : string)
  | VList (l : list value)
  | VDict (d : gmap string value).

Abbreviation pydict := (gmap string value).

(** Exceptions that the modelled code raises or lets through. *)
Inductive exn : Type :=
  | TypeError
  | KeyError
  | ConnectionError
  | AuthenticationError
  | ClientError.

Inductive result (A : Type) : Type :=
  | Ok (a : A)
  | Raise (e : exn).
Arguments Ok {A} a.
Arguments Raise {A} e.

Module Py.

(** [x is None] *)
Definition is_none (v : value) : bool :=
  match v with VNone => true | _ => false end.

(** [isinstance(x, dict)] *)
Definition is_dict (v : value) : bool :=
  match v with VDict _ => true | _ => false end.

(** [bool(x)]: the truth value Python gives to an object. *)
Definition truthy (v : value) : bool :=
  match v with
  | VNone => false
  | VBool b => b
  | VInt n => negb (n =? 0)
  | VFloat q => negb (Qnum q =? 0)
  | VStr s => negb (String.eqb s "")
  | VList l => match l with [] => false | _ => true end
  | VDict d => negb (bool_decide (d = ∅))
  end.

(** [d.get(k)]: the value, or [None] when the key is absent. *)
Definition get (d : pydict) (k : string) : value :=
  default VNone (d !! k).

(** [d.get(k, dflt)] *)
Definition get_or (d : pydict) (k : string) (dflt : value) : value :=
  default dflt (d !! k).

(** [k in d] *)
Definition contains (d : pydict) (k : string) : bool :=
  bool_decide (is_Some (d !! k)).

(** [{**a, **b}]: the keys of [b] win. *)
Definition overlay (a b : pydict) : pydict := b ∪ a.

(** [hash(x)] succeeds: a list or a dictionary cannot be a dictionary key,
    and looking one up raises [TypeError]. *)
Definition hashable (v : value) : bool :=
  match v with VList _ | VDict _ => false | _ => true end.

(** [s[lo:hi]] on a string, for [0 <= lo <= hi]. *)
Definition slice (lo hi : nat) (s : string) : string :=
  String.substring lo (hi - lo) s.

End Py.

(** ** api/device.py *)

Module DeviceModel.

Record Device : Type := mkDevice {
  device_id : string;
  name : string;
  token : string;
  device_type : string;
  display_type : string;
  model : option string
}.

(** A record of the discovery response.  The fields that [from_api] reads
    with [data[...]] are present; [appEui] is read with [data.get] and may
    be missing or null. *)
Record discovery : Type := mkDiscovery {
  r_deviceId : string;
  r_name : string;
  r_token : string;
  r_type : string;
  r_appEui : option string
}.

(** [Device.from_api].  The walrus test [if app_eui := data.get("appEui")]
    fails for a missing, null or empty identity string. *)
Definition from_api (data : discovery) : Device :=
  let '(model, display_type) :=
    match r_appEui data with
    | Some app_eui =>
        if negb (String.eqb app_eui "") then
          if (10 <=? String.length app_eui)%nat then
            let model_num := Py.slice 6 10 app_eui in
            let model := Some ("YS" +:+ model_num +:+ "-UC") in
            if String.eqb model_num "7706" then (model, "TiltSensor")
            else if String.eqb model_num "8004" then (model, "TempSensor")
            else (model, r_type data)
          else (None, r_type data)
        else (None, r_type data)
    | None => (None, r_type data)
    end in
  {| device_id := r_deviceId data;
     name := r_name data;
     token := r_token data;
     device_type := r_type data;
     display_type := display_type;
     model := model |}.

End DeviceModel.

(** ** coordinator.py: the event handler *)

Module Coordinator.
Import DeviceModel.

(** [DeviceEvent] of api/mqtt.py, as far as the handler reads it.  The
    fields are declared a string and a dictionary, but [from_payload] checks
    nothing: each holds whatever the payload carried under [deviceId] and
    [data]; the handler itself tests [isinstance(event.data, dict)]. *)
Record DeviceEvent : Type := mkEvent {
  ev_device_id : value;
  ev_data : value
}.

(** The part of [YoLocalCoordinator] the handler touches: the device
    registry, the state store, and the updates handed to
    [async_set_updated_data] (latest first), each a copy of the store. *)
Record coordinator : Type := mkCoordinator {
  _devices : gmap string Device;
  _states : gmap string pydict;
  dispatched : list (gmap string pydict)
}.

Definition async_set_updated_data (c : coordinator)
    (data : gmap string pydict) : coordinator :=
  {| _devices := _devices c; _states := _states c;
     dispatched := data :: dispatched c |}.

Definition set_state (c : coordinator) (device_id : string)
    (new_state : pydict) : coordinator :=
  {| _devices := _devices c;
     _states := <[device_id := new_state]> (_states c);
     dispatched := dispatched c |}.

(** [get_state]: [self._states.get(device_id, {})] *)
Definition get_state (c : coordinator) (device_id : string) : pydict :=
  default ∅ (_states c !! device_id).

Definition th_reserved : list string := ["state"; "online"; "reportAt"].
Definition th_nullable : list string :=
  ["temperature"; "humidity"; "mode"; "version"].

(** One iteration of the loop that folds flat keys into the nested state. *)
Definition th_fold_step (key : string) (v : value) (merged : pydict) : pydict :=
  if bool_decide (key ∈ th_reserved) then merged
  else if Py.is_none v && bool_decide (key ∈ th_nullable) then merged
  else <[key := v]> merged.

(** [for key, value in event_data.items(): ...] *)
Definition th_fold (event_data merged : pydict) : pydict :=
  map_fold th_fold_step merged event_data.

(** The nested state object built before the loop. *)
Definition th_state_obj (existing_state event_data : pydict) : pydict :=
  let merged0 : pydict :=
    match Py.get existing_state "state" with
    | VDict es => es
    | _ => ∅
    end in
  match Py.get event_data "state" with
  | VDict ds => ds ∪ merged0
  | VNone => merged0
  | v => <["state" := v]> merged0
  end.

(** The THSensor branch, up to the new snapshot. *)
Definition th_merge (existing_state : pydict) (data : value) : pydict :=
  let event_data : pydict :=
    match data with VDict d => d | _ => ∅ end in
  let new_state := Py.overlay existing_state event_data in
  let merged_state_obj :=
    th_fold event_data (th_state_obj existing_state event_data) in
  if bool_decide (merged_state_obj = ∅) then new_state
  else <["state" := VDict merged_state_obj]> new_state.

(** The general branch, up to the new snapshot.  [{**existing_state,
    **event.data}] raises [TypeError] when [event.data] is not a mapping. *)
Definition general_merge (existing_state : pydict) (data : value)
    : result pydict :=
  match data with
  | VDict event_data =>
      let new_state := Py.overlay existing_state event_data in
      Ok
        match existing_state !! "state", event_data !! "state" with
        | Some existing_state_obj, Some event_state_obj =>
            match existing_state_obj, event_state_obj with
            | VDict e, VDict s =>
                <["state" := VDict (Py.overlay e s)]> new_state
            | _, VDict s => <["state" := VDict s]> new_state
            | VDict e, _ =>
                <["state" := VDict (<["state" := event_state_obj]> e)]> new_state
            | _, _ => new_state
            end
        | _, _ => new_state
        end
  | _ => Raise TypeError
  end.

(** [YoLocalCoordinator._on_device_event].  The keys of the registry are
    strings, so [self._devices.get(device_id)] raises [TypeError] for an
    identifier that cannot be hashed, and finds nothing for any other
    identifier that is no string. *)
Definition _on_device_event (c : coordinator) (event : DeviceEvent)
    : result coordinator :=
  if negb (Py.hashable (ev_device_id event)) then Raise TypeError
  else
    match ev_device_id event with
    | VStr device_id =>
        match _devices c !! device_id with
        | None => Ok c
        | Some device =>
            let existing_state := get_state c device_id in
            if String.eqb (device_type device) "THSensor" then
              let c' :=
                set_state c device_id
                  (th_merge existing_state (ev_data event)) in
              Ok (async_set_updated_data c' (_states c'))
            else
              match general_merge existing_state (ev_data event) with
              | Ok new_state =>
                  let c' := set_state c device_id new_state in
                  Ok (async_set_updated_data c' (_states c'))
              | Raise e => Raise e
              end
        end
    | _ => Ok c
    end.

(** The coordinator after the handler ran: an exception leaves the
    handler before any assignment, so the object is as it was. *)
Definition after_event (c : coordinator) (event : DeviceEvent) : coordinator :=
  match _on_device_event c event with
  | Ok c' => c'
  | Raise _ => c
  end.

End Coordinator.

(** ** yolink_tooling_common.py *)

Module Tooling.

(** [model_num_from_app_eui] *)
Definition model_num_from_app_eui (app_eui : option string) : option string :=
  match app_eui with
  | Some e =>
      if negb (String.eqb e "") && (10 <=? String.length e)%nat
      then Some (Py.slice 6 10 e)
      else None
  | None => None
  end.

(** [normalize_display_type] *)
Definition normalize_display_type (raw_type : string)
    (app_eui : option string) : string :=
  let model_num := model_num_from_app_eui app_eui in
  if bool_decide (model_num = Some "7706") then "TiltSensor"
  else if bool_decide (model_num = Some "8004") then "TempSensor"
  else raw_type.

(** [normalize_event_payload] *)
Definition normalize_event_payload (payload : pydict) : value * pydict :=
  let device_id := Py.get_or payload "deviceId" (VStr "") in
  let raw_data := Py.get payload "data" in
  let raw_data :=
    if Py.is_none raw_data then
      match Py.get payload "params" with
      | VDict params => Py.get_or params "data" (VDict params)
      | _ => raw_data
      end
    else raw_data in
  let raw_data :=
    if Py.is_none raw_data && Py.contains payload "state"
    then VDict {["state" := Py.get payload "state"]}
    else raw_data in
  let event_data : pydict :=
    match raw_data with
    | VDict d => d
    | VNone => ∅
    | v => {["state" := v]}
    end in
  let event_data :=
    if negb (Py.contains event_data "reportAt") && Py.truthy (Py.get payload "time")
    then <["reportAt" := Py.get payload "time"]> event_data
    else event_data in
  let event_data :=
    if negb (Py.contains event_data "online") && Py.contains payload "online"
    then <["online" := Py.get payload "online"]> event_data
    else event_data in
  (device_id, event_data).

(** The normalizer as the amended description has it: the first rule, in
    order, that yields a non-null value selects the data; a selected value
    that is not a mapping is wrapped under [state]; [time] is copied in as
    [reportAt] only when it is truthy. *)
Definition rule_data (payload : pydict) : value :=
  Py.get payload "data".

Definition rule_params (payload : pydict) : value :=
  match payload !! "params" with
  | Some (VDict params) =>
      match params !! "data" with
      | Some v => v
      | None => VDict params
      end
  | _ => VNone
  end.

Definition rule_state (payload : pydict) : value :=
  match payload !! "state" with
  | Some v => VDict {["state" := v]}
  | None => VNone
  end.

Fixpoint first_non_null (candidates : list value) : value :=
  match candidates with
  | [] => VNone
  | VNone :: rest => first_non_null rest
  | v :: _ => v
  end.

Definition as_mapping (v : value) : pydict :=
  match v with
  | VDict d => d
  | VNone => ∅
  | _ => {["state" := v]}
  end.

Definition copy_if_absent (key : string) (source : option value)
    (data : pydict) : pydict :=
  match data !! key, source with
  | None, Some v => <[key := v]> data
  | _, _ => data
  end.

Definition normalize_event_payload_spec (payload : pydict) : value * pydict :=
  let data :=
    as_mapping
      (first_non_null [rule_data payload; rule_params payload; rule_state payload]) in
  let time :=
    match payload !! "time" with
    | Some t => if Py.truthy t then Some t else None
    | None => None
    end in
  let data := copy_if_absent "reportAt" time data in
  let data := copy_if_absent "online" (payload !! "online") data in
  (default (VStr "") (payload !! "deviceId"), data).

Definition merge_reserved : list string := ["online"; "reportAt"; "state"].

(** One iteration of the loop of [merge_state]; the accumulator is
    [(merged_state_obj, new_state)]. *)
Definition merge_step (key : string) (v : value) (acc : pydict * pydict)
    : pydict * pydict :=
  if bool_decide (key ∈ merge_reserved) then acc
  else (<[key := v]> (acc.1), delete key (acc.2)).

(** [merge_state] *)
Definition merge_state (existing_state event_data : pydict) : pydict :=
  let new_state := Py.overlay existing_state event_data in
  let existing_state_obj := Py.get existing_state "state" in
  let event_state_obj := Py.get event_data "state" in
  match existing_state_obj with
  | VDict es =>
      let merged_state_obj : pydict :=
        match event_state_obj with
        | VDict ds => ds ∪ es
        | VNone => es
        | v => <["state" := v]> es
        end in
      let acc := map_fold merge_step (merged_state_obj, new_state) event_data in
      <["state" := VDict (acc.1)]> (acc.2)
  | _ =>
      match event_state_obj with
      | VDict ds => <["state" := VDict ds]> new_state
      | _ => new_state
      end
  end.

End Tooling.

(** ** entity.py: availability *)

Module Entity.

(** [timedelta(hours=12)], in microseconds (the resolution of
    [timedelta]). *)
Definition twelve_hours : Z := 12 * 3600 * 1000000.

Section Available.
(** The date-time helpers of the host platform are taken as given:
    [dt_util.parse_datetime] returns a date-time, [None], or raises;
    [dt_util.utcnow()] is the current time; the difference of two
    date-times is a [timedelta] (here in microseconds), or raises. *)
Variable datetime : Type.
Variable parse_datetime : value → result (option datetime).
Variable utcnow : datetime.
Variable dt_sub : datetime → datetime → result Z.

(** [YoLocalEntity.available]; [coordinator_available] is
    [super().available]. *)
Definition available (coordinator_available : bool) (state : pydict) : bool :=
  if negb coordinator_available then false
  else if negb (Py.truthy (Py.get_or state "online" (VBool true))) then false
  else
    let report_at := Py.get state "reportAt" in
    if Py.truthy report_at then
      match parse_datetime report_at with
      | Ok (Some last_report) =>
          match dt_sub utcnow last_report with
          | Ok time_since_report =>
              if time_since_report >? twelve_hours then false else true
          | Raise _ => true
          end
      | Ok None => true
      | Raise _ => true
      end
    else true.
End Available.

End Entity.

(** ** Date-times of the host language

    A date-time as Python's [datetime] has it, as far as subtraction goes:
    the reading of its calendar and clock fields, in microseconds since the
    epoch, and its UTC offset, which a naive date-time lacks.  [a - b] is
    defined between two aware or between two naive date-times, and raises
    [TypeError] between an aware and a naive one. *)

Module PyDatetime.

Record datetime : Type := mkDatetime {
  wall : Z;
  utcoffset : option Z
}.

Definition sub (a b : datetime) : result Z :=
  match utcoffset a, utcoffset b with
  | Some oa, Some ob => Ok ((wall a - oa) - (wall b - ob))
  | None, None => Ok (wall a - wall b)
  | _, _ => Raise TypeError
  end.

End PyDatetime.

(** ** coordinator.py and api/mqtt.py: start-up *)

Module Startup.
Import DeviceModel Coordinator.

(** What the hub and the network answer during start-up. *)
Record hub : Type := mkHub {
  (** the answer to the n-th call of [TokenManager.get_token] *)
  get_token : nat → result string;
  (** [YoLinkClient.get_devices] *)
  get_devices : result (list Device);
  (** [YoLinkClient.get_state] *)
  get_state_of : Device → result pydict;
  (** whether the broker acknowledges the connection, setting
      [_connected], before [asyncio.wait_for] gives up after 10 seconds *)
  connected_in_time : bool
}.

Inductive log_entry : Type :=
  | LogInfo (msg : string)
  | LogWarning (msg : string)
  | LogException (msg : string) (e : exn).

(** The resources start-up acquires, and the log. *)
Record world : Type := mkWorld {
  session_open : bool;
  token_calls : nat;
  mqtt_loop_started : bool;
  log : list log_entry
}.

(** Computations that change the world and may raise. *)
Definition M (A : Type) : Type := world → result A * world.

#[export] Instance M_ret : MRet M := λ A a w, (Ok a, w).
#[export] Instance M_bind : MBind M := λ A B f m w,
  match m w with
  | (Ok a, w') => f a w'
  | (Raise e, w') => (Raise e, w')
  end.

Definition raise {A} (e : exn) : M A := λ w, (Raise e, w).

(** [try: body  except Exception: handler] *)
Definition try_except {A} (body : M A) (handler : exn → M A) : M A := λ w,
  match body w with
  | (Ok a, w') => (Ok a, w')
  | (Raise e, w') => handler e w'
  end.

Definition write_log (entry : log_entry) : M unit := λ w,
  (Ok tt, {| session_open := session_open w; token_calls := token_calls w;
             mqtt_loop_started := mqtt_loop_started w;
             log := entry :: log w |}).

Definition session_close : M unit := λ w,
  (Ok tt, {| session_open := false; token_calls := token_calls w;
             mqtt_loop_started := mqtt_loop_started w; log := log w |}).

Definition loop_start : M unit := λ w,
  (Ok tt, {| session_open := session_open w; token_calls := token_calls w;
             mqtt_loop_started := true; log := log w |}).

Definition call_get_token (h : hub) : M string := λ w,
  (get_token h (token_calls w),
   {| session_open := session_open w; token_calls := S (token_calls w);
      mqtt_loop_started := mqtt_loop_started w; log := log w |}).

Definition lift {A} (r : result A) : M A := λ w, (r, w).

(** [YoLinkMQTTClient.connect]: start the network loop, then wait for the
    connection; [asyncio.TimeoutError] becomes [ConnectionError]. *)
Definition connect (h : hub) : M unit :=
  loop_start;;
  if connected_in_time h then mret tt else raise ConnectionError.

(** [YoLocalCoordinator._connect_mqtt] *)
Definition _connect_mqtt (h : hub) : M unit :=
  _ ← call_get_token h;
  try_except
    (connect h;; write_log (LogInfo "Connected to YoLink MQTT broker"))
    (λ e, write_log (LogException "Failed to connect to MQTT broker" e)).

(** The loop of [_async_setup] that fetches each device's first snapshot. *)
Fixpoint fetch_states (h : hub) (devices : list Device)
    (states : gmap string pydict) : M (gmap string pydict) :=
  match devices with
  | [] => mret states
  | device :: rest =>
      states' ←
        try_except
          (state ← lift (get_state_of h device);
           mret (<[device_id device := state]> states))
          (λ _,
           write_log (LogWarning "Failed to get initial state");;
           mret (<[device_id device := ∅]> states));
      fetch_states h rest states'
  end.

(** [{d.device_id: d for d in devices}] *)
Definition registry_of (devices : list Device) : gmap string Device :=
  foldl (λ reg d, <[device_id d := d]> reg) ∅ devices.

(** [YoLocalCoordinator._async_setup] *)
Definition _async_setup (h : hub) : M coordinator :=
  devices ← lift (get_devices h);
  states ← fetch_states h devices ∅;
  _connect_mqtt h;;
  mret {| _devices := registry_of devices; _states := states;
          dispatched := [] |}.

Definition fresh_world : world :=
  {| session_open := true; token_calls := 0%nat;
     mqtt_loop_started := false; log := [] |}.

(** [create_coordinator]: the session is opened first; any exception of
    the body closes it and is raised again. *)
Definition create_coordinator (h : hub) : result coordinator * world :=
  try_except
    (_ ← call_get_token h;
     _async_setup h)
    (λ e, session_close;; raise e)
    fresh_world.

End Startup.


(** ** Python numbers, as far as the entities compute with them *)

Module PyNum.




(** [x == s] for a string literal [s]: only an equal string is equal. *)
Definition eq_str (v : value) (s : string) : bool :=
  match v with
  | VStr x => String.eqb x s
  | _ => false
  end.

Section Battery.
(** The product of two floats, as the machine rounds it. *)
Variable float_mul : Q → Q → Q.

(** [min(level * 25, 100)].  A string or a list can be repeated 25 times,
    but the comparison with 100 then raises; [None] and a mapping raise at
    the product. *)
Definition battery_percentage (level : value) : result value :=
  match level with
  | VInt n => Ok (VInt (Z.min (n * 25) 100))
  | VBool b => Ok (VInt (Z.min ((if b then 1 else 0) * 25) 100))
  | VFloat q =>
      let p := float_mul q (inject_Z 25) in
      Ok (if Qlt_le_dec (inject_Z 100) p then VInt 100 else VFloat p)
  | _ => Raise TypeError
  end.
End Battery.

End PyNum.

(** ** api/mqtt.py: events and subscriptions *)

Module Mqtt.
Import Coordinator.

(** A [DeviceEvent] as [from_payload] builds it: nothing is checked, so
    every field holds whatever the payload carried. *)
Record RawDeviceEvent : Type := mkRawEvent {
  raw_device_id : value;
  raw_event : value;
  raw_data : value;
  raw : pydict
}.

(** [DeviceEvent.from_payload] *)
Definition from_payload (payload : pydict) : RawDeviceEvent :=
  {| raw_device_id := Py.get_or payload "deviceId" (VStr "");
     raw_event := Py.get_or payload "event" (VStr "");
     raw_data := Py.get_or payload "data" (VDict ∅);
     raw := payload |}.

(** The event as the coordinator's handler reads it. *)
Definition as_event (r : RawDeviceEvent) : DeviceEvent :=
  {| ev_device_id := raw_device_id r; ev_data := raw_data r |}.

(** [YoLinkMQTTClient.subscribe] appends the callback; callbacks are
    compared by identity, here a number. *)
Definition subscribe (callbacks : list nat) (callback : nat) : list nat :=
  callbacks ++ [callback].

(** The function [subscribe] returns: [self._callbacks.remove(callback)]
    drops the first occurrence; [None] stands for the [ValueError] of a
    callback that is not in the list. *)
Fixpoint unsubscribe (callbacks : list nat) (callback : nat)
    : option (list nat) :=
  match callbacks with
  | [] => None
  | c :: rest =>
      if decide (c = callback) then Some rest
      else match unsubscribe rest callback with
           | Some rest' => Some (c :: rest')
           | None => None
           end
  end.

End Mqtt.

(** ** lock.py *)

Module Lock.

(** [YoLocalLock.is_locked]; [None] is Python's [None]. *)
Definition is_locked (device_state : pydict) : option bool :=
  let state := Py.get device_state "state" in
  if Py.is_none state then None
  else
    match state with
    | VDict nested =>
        let state := Py.get nested "state" in
        if Py.is_none state then None
        else Some (PyNum.eq_str state "locked")
    | _ => Some (PyNum.eq_str state "locked")
    end.

End Lock.

(** ** binary_sensor.py *)

Module BinarySensor.
Import DeviceModel.

(** [DEVICE_TYPE_TO_CLASS], as the set of its keys. *)
Definition DEVICE_TYPE_TO_CLASS : list string :=
  ["DoorSensor"; "LeakSensor"; "MotionSensor"; "VibrationSensor"].

(** [DEVICE_TYPE_TO_ON_STATE.get(device_type, "open")] *)
Definition on_state (device_type : string) : string :=
  if String.eqb device_type "DoorSensor" then "open"
  else if String.eqb device_type "LeakSensor" then "alert"
  else if String.eqb device_type "MotionSensor" then "alert"
  else if String.eqb device_type "VibrationSensor" then "alert"
  else "open".

(** [YoLocalBinarySensor.is_on] *)
Definition is_on (device_type : string) (device_state : pydict) : option bool :=
  let state := Py.get_or device_state "state" (VDict ∅) in
  let sensor_state :=
    match state with
    | VDict nested => Py.get nested "state"
    | _ => state
    end in
  if Py.is_none sensor_state then None
  else Some (PyNum.eq_str sensor_state (on_state device_type)).

(** The entities [async_setup_entry] creates. *)
Inductive entity : Type :=
  | YoLocalBinarySensor
  | YoLocalTHAlarmSensor (alarm_type : string)
  | YoLocalLeakAlarmSensor (alarm_type : string)
  | YoLocalMotionLEDSensor.

(** [_attr_unique_id], as each constructor sets it. *)
Definition unique_id (device : Device) (e : entity) : string :=
  match e with
  | YoLocalBinarySensor => device_id device
  | YoLocalTHAlarmSensor alarm_type =>
      device_id device +:+ "_alarm_" +:+ alarm_type
  | YoLocalLeakAlarmSensor alarm_type =>
      device_id device +:+ "_alarm_" +:+ alarm_type
  | YoLocalMotionLEDSensor => device_id device +:+ "_led_alarm"
  end.

(** The body of the loop of [async_setup_entry], for one device. *)
Definition entities_for (device : Device) : list entity :=
  (if bool_decide (device_type device ∈ DEVICE_TYPE_TO_CLASS)
   then [YoLocalBinarySensor] else [])
  ++
  (if String.eqb (device_type device) "THSensor" then
     [YoLocalTHAlarmSensor "lowTemp"; YoLocalTHAlarmSensor "highTemp";
      YoLocalTHAlarmSensor "lowHumidity"; YoLocalTHAlarmSensor "highHumidity";
      YoLocalTHAlarmSensor "lowBattery"]
   else if String.eqb (device_type device) "LeakSensor" then
     [YoLocalLeakAlarmSensor "detectorError"; YoLocalLeakAlarmSensor "freezeError";
      YoLocalLeakAlarmSensor "stayError"; YoLocalLeakAlarmSensor "reminder"]
   else if String.eqb (device_type device) "MotionSensor" then
     [YoLocalMotionLEDSensor]
   else []).

End BinarySensor.

(** ** sensor.py *)

Module Sensor.
Import DeviceModel.

(** The reading shared by the firmware, temperature, humidity and
    reporting-interval sensors of a THSensor: the nested value when the
    nested [state] is a mapping holding a non-null one, else the top-level
    value. *)
Definition nested_or_flat (key : string) (device_state : pydict) : value :=
  match Py.get_or device_state "state" (VDict ∅) with
  | VDict state =>
      let value := Py.get state key in
      if Py.is_none value then Py.get device_state key else value
  | _ => Py.get device_state key
  end.

(** [YoLocalFirmwareSensor.native_value] *)
Definition firmware_native_value : pydict → value := nested_or_flat "version".

(** [YoLocalTemperatureSensor.native_value] *)
Definition temperature_native_value : pydict → value :=
  nested_or_flat "temperature".

(** [YoLocalHumiditySensor.native_value] *)
Definition humidity_native_value : pydict → value := nested_or_flat "humidity".

(** [YoLocalTHIntervalSensor.native_value] *)
Definition th_interval_native_value : pydict → value :=
  nested_or_flat "interval".

(** The reading shared by the diagnostic sensors of the other families:
    the nested value, or [None] when the nested [state] is no mapping. *)
Definition nested_only (key : string) (device_state : pydict) : value :=
  match Py.get_or device_state "state" (VDict ∅) with
  | VDict state => Py.get state key
  | _ => VNone
  end.

Section Battery.
Variable float_mul : Q → Q → Q.

(** [YoLocalBatterySensor.native_value]; [entity_available] is
    [super().available], the availability of the base entity. *)
Definition battery_native_value (entity_available : bool)
    (device_state : pydict) : result value :=
  if negb entity_available then Ok (VInt 0)
  else
    let level :=
      match Py.get_or device_state "state" (VDict ∅) with
      | VDict state => Py.get state "battery"
      | _ => Py.get device_state "battery"
      end in
    if Py.is_none level then Ok VNone
    else PyNum.battery_percentage float_mul level.
End Battery.


(** The entities [async_setup_entry] creates. *)
Inductive entity : Type :=
  | YoLocalBatterySensor
  | YoLocalFirmwareSensor
  | YoLocalLastReportedSensor
  | YoLocalTemperatureSensor
  | YoLocalHumiditySensor
  | YoLocalTHModeSensor
  | YoLocalTHIntervalSensor
  | YoLocalTHCorrectionSensor (measurement_type : string)
  | YoLocalTHLimitSensor (measurement_type limit_type : string)
  | YoLocalDeviceTemperatureSensor
  | YoLocalMotionSensitivitySensor
  | YoLocalMotionNoMotionDelaySensor
  | YoLocalMotionAlertIntervalSensor
  | YoLocalLeakSensorModeSensor
  | YoLocalLeakIntervalSensor
  | YoLocalDoorDelaySensor
  | YoLocalDoorOpenRemindDelaySensor
  | YoLocalDoorAlertIntervalSensor.

(** The suffix each constructor appends to the device identifier to make
    [_attr_unique_id]. *)
Definition unique_id_suffix (e : entity) : string :=
  match e with
  | YoLocalBatterySensor => "_battery"
  | YoLocalFirmwareSensor => "_firmware"
  | YoLocalLastReportedSensor => "_last_reported"
  | YoLocalTemperatureSensor => "_temperature"
  | YoLocalHumiditySensor => "_humidity"
  | YoLocalTHModeSensor => "_temp_unit"
  | YoLocalTHIntervalSensor => "_interval"
  | YoLocalTHCorrectionSensor measurement_type =>
      if String.eqb measurement_type "temperature" then "_temp_correction"
      else "_humidity_correction"
  | YoLocalTHLimitSensor measurement_type limit_type =>
      if String.eqb measurement_type "temperature" then "_temp_" +:+ limit_type
      else "_humidity_" +:+ limit_type
  | YoLocalDeviceTemperatureSensor => "_dev_temperature"
  | YoLocalMotionSensitivitySensor => "_sensitivity"
  | YoLocalMotionNoMotionDelaySensor => "_nomotion_delay"
  | YoLocalMotionAlertIntervalSensor => "_alert_interval"
  | YoLocalLeakSensorModeSensor => "_sensor_mode"
  | YoLocalLeakIntervalSensor => "_interval"
  | YoLocalDoorDelaySensor => "_delay"
  | YoLocalDoorOpenRemindDelaySensor => "_open_remind_delay"
  | YoLocalDoorAlertIntervalSensor => "_alert_interval"
  end.

Definition unique_id (device : Device) (e : entity) : string :=
  device_id device +:+ unique_id_suffix e.

(** [device.model not in {"YS8003-UC", "YS8004-UC"}] *)
Definition has_threshold_sensors (device : Device) : bool :=
  negb (bool_decide (model device = Some "YS8003-UC")
        || bool_decide (model device = Some "YS8004-UC")).

(** The body of the loop of [async_setup_entry], for one device. *)
Definition entities_for (device : Device) : list entity :=
  [YoLocalBatterySensor; YoLocalFirmwareSensor; YoLocalLastReportedSensor]
  ++
  (if String.eqb (device_type device) "THSensor" then
     [YoLocalTemperatureSensor]
     ++ (if String.eqb (display_type device) "THSensor"
         then [YoLocalTHModeSensor] else [])
     ++ [YoLocalTHIntervalSensor; YoLocalTHCorrectionSensor "temperature"]
     ++ (if has_threshold_sensors device
         then [YoLocalTHLimitSensor "temperature" "max";
               YoLocalTHLimitSensor "temperature" "min"]
         else [])
     ++ (if negb (String.eqb (display_type device) "TempSensor") then
           [YoLocalHumiditySensor; YoLocalTHCorrectionSensor "humidity"]
           ++ (if has_threshold_sensors device
               then [YoLocalTHLimitSensor "humidity" "max";
                     YoLocalTHLimitSensor "humidity" "min"]
               else [])
         else [])
   else if String.eqb (device_type device) "MotionSensor" then
     [YoLocalDeviceTemperatureSensor; YoLocalMotionSensitivitySensor;
      YoLocalMotionNoMotionDelaySensor; YoLocalMotionAlertIntervalSensor]
   else if String.eqb (device_type device) "LeakSensor" then
     [YoLocalDeviceTemperatureSensor; YoLocalLeakSensorModeSensor;
      YoLocalLeakIntervalSensor]
   else if String.eqb (device_type device) "DoorSensor" then
     [YoLocalDoorDelaySensor; YoLocalDoorOpenRemindDelaySensor;
      YoLocalDoorAlertIntervalSensor]
   else []).

End Sensor.

(** ** wait_for_yolink_change.py and list_yolink_device_types.py *)

Module Scripts.

(** [extract_th]: a dictionary with the two keys. *)
Definition extract_th (state : pydict) : pydict :=
  match Py.get state "state" with
  | VDict nested =>
      {[ "temperature" := Py.get nested "temperature";
         "humidity" := Py.get nested "humidity" ]}
  | _ => {[ "temperature" := VNone; "humidity" := VNone ]}
  end.

(** [extract_motion] *)
Definition extract_motion (state : pydict) : option string :=
  match Py.get state "state" with
  | VDict nested =>
      match Py.get nested "state" with
      | VStr value => Some value
      | _ => None
      end
  | VStr nested => Some nested
  | _ => None
  end.

(** What [on_message] of [run] does to [current_state], for the device
    being watched; its identifier is a string, as the hub lists it. *)
Definition on_message (device_id : string) (current_state payload : pydict)
    : pydict :=
  let '(event_device_id, event_data) :=
    Tooling.normalize_event_payload payload in
  if negb (PyNum.eq_str event_device_id device_id) then current_state
  else Tooling.merge_state current_state event_data.

(** A row of the table of [list_yolink_device_types.main], from the
    [type] and [appEui] entries of a device record ([None]: missing or
    null). *)
Definition device_row (type_ app_eui : option string) : string * string :=
  let raw_type :=
    match type_ with
    | Some t => if String.eqb t "" then "Unknown" else t
    | None => "Unknown"
    end in
  let app_eui := default "" app_eui in
  let model_num := Tooling.model_num_from_app_eui (Some app_eui) in
  let model :=
    match model_num with
    | Some n => if String.eqb n "" then "Unknown" else "YS" +:+ n +:+ "-UC"
    | None => "Unknown"
    end in
  (Tooling.normalize_display_type raw_type (Some app_eui), model).

End Scripts.

(** ** Predicates and abbreviations used in the statements *)

Module Reading.
Import DeviceModel Startup.

(** A mapping whose [state], bare or nested, is the string [x]. *)
Definition reports_state (snapshot : pydict) (x : string) : Prop :=
  snapshot !! "state" = Some (VStr x) ∨
  ∃ nested, snapshot !! "state" = Some (VDict nested) ∧
            nested !! "state" = Some (VStr x).


End Reading.

(** ** Sample data *)

Module Samples.
Import DeviceModel Coordinator Startup.

Definition th_device : Device :=
  {| device_id := "th1"; name := "Attic"; token := "t-th1";
     device_type := "THSensor"; display_type := "THSensor";
     model := Some "YS8003-UC" |}.

Definition door_device : Device :=
  {| device_id := "door1"; name := "Front door"; token := "t-door1";
     device_type := "DoorSensor"; display_type := "DoorSensor";
     model := Some "YS7704-UC" |}.

(** 21.5 *)
Definition temp_21_5 : value := VFloat (43 # 2).

Definition th_snapshot : pydict :=
  {[ "state" := VDict {[ "temperature" := temp_21_5 ]} ]}.

Definition door_snapshot : pydict :=
  {[ "state" := VDict {[ "battery" := VInt 3 ]} ]}.

Definition home : coordinator :=
  {| _devices := {[ "th1" := th_device; "door1" := door_device ]};
     _states := {[ "th1" := th_snapshot; "door1" := door_snapshot ]};
     dispatched := [] |}.

(** A THSensor whose first snapshot could not be fetched. *)
Definition home_empty : coordinator :=
  {| _devices := {[ "th1" := th_device ]};
     _states := {[ "th1" := ∅ ]};
     dispatched := [] |}.

Definition humidity_report : DeviceEvent :=
  {| ev_device_id := VStr "th1"; ev_data := VDict {[ "humidity" := VInt 55 ]} |}.

Definition null_temperature_report : DeviceEvent :=
  {| ev_device_id := VStr "th1"; ev_data := VDict {[ "temperature" := VNone ]} |}.

Definition nested_null_report : DeviceEvent :=
  {| ev_device_id := VStr "th1";
     ev_data := VDict {[ "temperature" := VNone;
                         "state" := VDict {[ "temperature" := VNone ]} ]} |}.

Definition door_open_report : DeviceEvent :=
  {| ev_device_id := VStr "door1"; ev_data := VDict {[ "state" := VStr "open" ]} |}.

Definition door_battery_report : DeviceEvent :=
  {| ev_device_id := VStr "door1";
     ev_data := VDict {[ "state" := VDict {[ "battery" := VInt 4 ]} ]} |}.

(** A door sensor whose snapshot holds a bare string under [state]. *)
Definition home_closed : coordinator :=
  {| _devices := {[ "door1" := door_device ]};
     _states := {[ "door1" := {[ "state" := VStr "closed" ]} ]};
     dispatched := [] |}.

Definition stranger_report : DeviceEvent :=
  {| ev_device_id := VStr "nobody"; ev_data := VStr "alert" |}.

(** A report whose [deviceId] is a JSON array. *)
Definition listed_id_report : DeviceEvent :=
  {| ev_device_id := VList [VStr "th1"];
     ev_data := VDict {[ "humidity" := VInt 55 ]} |}.

Definition sample_discovery : discovery :=
  {| r_deviceId := "d88b4c0100012345"; r_name := "Attic"; r_token := "t";
     r_type := "THSensor"; r_appEui := Some "d88b4c7804000000" |}.

Definition short_discovery : discovery :=
  {| r_deviceId := "d88b4c0100012346"; r_name := "Cellar"; r_token := "t";
     r_type := "LeakSensor"; r_appEui := Some "d88b4c78" |}.

Definition tilt_discovery : discovery :=
  {| r_deviceId := "d88b4c0100012347"; r_name := "Garage"; r_token := "t";
     r_type := "DoorSensor"; r_appEui := Some "d88b4c7706000000" |}.

Definition bare_discovery : discovery :=
  {| r_deviceId := "d88b4c0100012348"; r_name := "Shed"; r_token := "t";
     r_type := "MotionSensor"; r_appEui := None |}.

(** A hub that refuses to list its devices. *)
Definition mute_hub : hub :=
  {| get_token := λ _, Ok "token";
     get_devices := Raise ClientError;
     get_state_of := λ d, Ok ∅;
     connected_in_time := false |}.

(** A hub that answers every request, behind a broker that does not
    acknowledge the connection in time. *)
Definition silent_broker : hub :=
  {| get_token := λ _, Ok "token";
     get_devices := Ok [th_device; door_device];
     get_state_of := λ d, Ok ∅;
     connected_in_time := false |}.

(** One hour, in microseconds. *)
Definition hour : Z := 3600 * 1000000.

(** A parser that knows three texts: the epoch with its UTC offset, the
    epoch without one, and 42 hours later; it finds no date-time in any
    other text and raises on what is no text. *)
Definition sample_parse (v : value) : result (option PyDatetime.datetime) :=
  match v with
  | VStr s =>
      if String.eqb s "1970-01-01T00:00:00+00:00" then
        Ok (Some (PyDatetime.mkDatetime 0 (Some 0)))
      else if String.eqb s "1970-01-01T00:00:00" then
        Ok (Some (PyDatetime.mkDatetime 0 None))
      else if String.eqb s "1970-01-02T18:00:00+00:00" then
        Ok (Some (PyDatetime.mkDatetime (42 * hour) (Some 0)))
      else Ok None
  | _ => Raise TypeError
  end.

(** The current time, in UTC: two days after the epoch. *)
Definition sample_now : PyDatetime.datetime :=
  PyDatetime.mkDatetime (48 * hour) (Some 0).

(** A payload whose [time] is the epoch itself. *)
Definition zero_time_payload : pydict :=
  {[ "deviceId" := VStr "d88b4c0100012345"; "time" := VInt 0 ]}.

Definition flat_null_data : pydict := {[ "temperature" := VNone ]}.

Definition stale_snapshot : pydict :=
  {[ "reportAt" := VStr "1970-01-01T00:00:00+00:00" ]}.

(** The same last report, written without its UTC offset. *)
Definition naive_stale_snapshot : pydict :=
  {[ "reportAt" := VStr "1970-01-01T00:00:00" ]}.

(** A report six hours old, from a device that says it is offline. *)
Definition fresh_offline_snapshot : pydict :=
  {[ "reportAt" := VStr "1970-01-02T18:00:00+00:00"; "online" := VBool false ]}.

End Samples.

(** ** More sample data *)

Module Fixtures.
Import DeviceModel Coordinator Startup Samples.

Definition lock_device : Device :=
  {| device_id := "lock1"; name := "Back door"; token := "t-lock1";
     device_type := "Lock"; display_type := "Lock"; model := None |}.

Definition home_lock : coordinator :=
  {| _devices := {[ "lock1" := lock_device ]};
     _states := {[ "lock1" := {[ "state" := VStr "unlocked" ]} ]};
     dispatched := [] |}.

Definition lock_data : pydict := {[ "state" := VStr "locked" ]}.

Definition lock_report : DeviceEvent :=
  {| ev_device_id := VStr "lock1"; ev_data := VDict lock_data |}.

(** A THSensor whose nested state holds a temperature and the firmware
    version. *)
Definition th_known_state : pydict :=
  {[ "temperature" := VInt 20; "version" := VStr "1.2" ]}.

Definition home_th : coordinator :=
  {| _devices := {[ "th1" := th_device ]};
     _states := {[ "th1" := {[ "state" := VDict th_known_state ]} ]};
     dispatched := [] |}.

Definition humidity_data : pydict := {[ "humidity" := VInt 55 ]}.

Definition door_open_data : pydict := {[ "state" := VStr "open" ]}.

Definition bare_alert_report : DeviceEvent :=
  {| ev_device_id := VStr "door1"; ev_data := VStr "alert" |}.

Definition bare_th_report : DeviceEvent :=
  {| ev_device_id := VStr "th1"; ev_data := VStr "alert" |}.

Definition empty_door_report : DeviceEvent :=
  {| ev_device_id := VStr "door1"; ev_data := VDict ∅ |}.

Definition battery_state : pydict :=
  {[ "state" := VDict {[ "battery" := VInt 3 ]} ]}.


Definition temp_probe_discovery : discovery :=
  {| r_deviceId := "d88b4c0100012349"; r_name := "Freezer"; r_token := "t";
     r_type := "THSensor"; r_appEui := Some "d88b4c8004000000" |}.

Definition lcd_discovery : discovery :=
  {| r_deviceId := "d88b4c010001234a"; r_name := "Hall"; r_token := "t";
     r_type := "THSensor"; r_appEui := Some "d88b4c8003000000" |}.

Definition door_payload : pydict :=
  {[ "deviceId" := VStr "door1"; "data" := VDict door_open_data ]}.

Definition params_payload : pydict :=
  {[ "deviceId" := VStr "door1"; "params" := VDict door_open_data ]}.

Definition null_data_payload : pydict :=
  {[ "deviceId" := VStr "door1"; "data" := VNone ]}.

Definition th_data : pydict := {[ "temperature" := VInt 22 ]}.

Definition th_payload : pydict :=
  {[ "deviceId" := VStr "th1"; "data" := VDict th_data ]}.

Definition other_payload : pydict :=
  {[ "deviceId" := VStr "door1"; "data" := VDict th_data ]}.

(** Floats are not multiplied in the examples. *)
Definition no_float_mul (a b : Q) : Q := 0%Q.

End Fixtures.

(** * Properties *)

(** ** The event handler *)

Section HandlerFacts.
Import DeviceModel Coordinator.
Implicit Types (c : coordinator) (event : DeviceEvent) (id : string).
Implicit Types (e d m : pydict) (k : string) (v : value).

(** What the folding loop leaves under each key. *)
Lemma th_fold_lookup d m k :
  th_fold d m !! k =
    match d !! k with
    | Some v =>
        if bool_decide (k ∈ th_reserved) then m !! k
        else if Py.is_none v && bool_decide (k ∈ th_nullable) then m !! k
        else Some v
    | None => m !! k
    end.
Proof.
  unfold th_fold. revert k.
  apply (map_fold_weak_ind
           (λ r d', ∀ k, r !! k = match d' !! k with
              | Some v =>
                  if bool_decide (k ∈ th_reserved) then m !! k
                  else if Py.is_none v && bool_decide (k ∈ th_nullable)
                       then m !! k else Some v
              | None => m !! k
              end)).
  - intros k. by rewrite lookup_empty.
  - intros i x d' r Hi IH k. unfold th_fold_step.
    destruct (decide (k = i)) as [->|Hne].
    + rewrite lookup_insert_eq.
      destruct (bool_decide (i ∈ th_reserved)) eqn:Hres.
      { rewrite IH, Hi. done. }
      destruct (Py.is_none x && bool_decide (i ∈ th_nullable)) eqn:Hnull.
      { rewrite IH, Hi. done. }
      by rewrite lookup_insert_eq.
    + rewrite (lookup_insert_ne d' i k) by done.
      destruct (bool_decide (i ∈ th_reserved)); [apply IH|].
      destruct (Py.is_none x && bool_decide (i ∈ th_nullable)); [apply IH|].
      rewrite lookup_insert_ne by done. apply IH.
Qed.

(** The loop only adds to the object it starts from. *)
Lemma th_fold_union d m : th_fold d m = th_fold d ∅ ∪ m.
Proof.
  apply map_eq; intros k. rewrite lookup_union, !th_fold_lookup.
  rewrite lookup_empty.
  destruct (d !! k) as [v|]; [|by rewrite (left_id_L None _)].
  destruct (bool_decide (k ∈ th_reserved)); [by rewrite (left_id_L None _)|].
  destruct (Py.is_none v && bool_decide (k ∈ th_nullable));
    [by rewrite (left_id_L None _)|].
  by destruct (m !! k).
Qed.

Lemma th_state_obj_union e d :
  th_state_obj e d = th_state_obj ∅ d ∪ th_state_obj e ∅.
Proof.
  unfold th_state_obj, Py.get. rewrite !lookup_empty. simpl.
  destruct (d !! "state") as [[]|]; simpl;
    rewrite ?(left_id_L ∅ _), ?(right_id_L ∅ _); try done.
  all: by rewrite <- insert_union_l, (left_id_L ∅ _).
Qed.

(** The nested object after the loop is a part fixed by the event data,
    laid over the nested object of the existing snapshot. *)
Lemma th_merged_union e d :
  th_fold d (th_state_obj e d) =
  th_fold d (th_state_obj ∅ d) ∪ th_state_obj e ∅.
Proof.
  rewrite (th_fold_union d (th_state_obj e d)), th_state_obj_union.
  rewrite (th_fold_union d (th_state_obj ∅ d)).
  by rewrite (assoc_L (∪)).
Qed.


(** The snapshot of a THSensor device after an event. *)
Lemma snapshot_after_th c event id dev :
  ev_device_id event = VStr id →
  _devices c !! id = Some dev →
  device_type dev = "THSensor" →
  get_state (after_event c event) id =
  th_merge (get_state c id) (ev_data event).
Proof.
  intros Hid Hdev Hty. unfold after_event, _on_device_event.
  rewrite Hid. cbn [Py.hashable negb].
  rewrite Hdev, Hty. simpl. unfold get_state at 1. simpl.
  by rewrite lookup_insert_eq.
Qed.

(** The snapshot of a device of another family after an event. *)
Lemma snapshot_after_general c event id dev :
  ev_device_id event = VStr id →
  _devices c !! id = Some dev →
  device_type dev ≠ "THSensor" →
  get_state (after_event c event) id =
  match general_merge (get_state c id) (ev_data event) with
  | Ok new_state => new_state
  | Raise _ => get_state c id
  end.
Proof.
  intros Hid Hdev Hty. unfold after_event, _on_device_event.
  rewrite Hid. cbn [Py.hashable negb].
  rewrite Hdev. apply String.eqb_neq in Hty. rewrite Hty.
  destruct (general_merge _ _); [|done].
  unfold get_state at 1. simpl. by rewrite lookup_insert_eq.
Qed.

(** C1: an event whose device identifier is not a key of the registry
    leaves the state store unchanged and nothing is dispatched.  When the
    identifier can be hashed, in particular when it is a string, the event
    is dropped: the handler returns normally with the coordinator as it was;
    an identifier that cannot be hashed makes the registry lookup itself
    raise.  Either way this holds whatever the event carries, also data on
    which the general merge would raise, so no merge takes place. *)
Theorem unknown_device_event_dropped c event :
  (∀ id, ev_device_id event = VStr id → _devices c !! id = None) →
  _states (after_event c event) = _states c ∧
  dispatched (after_event c event) = dispatched c ∧
  (Py.hashable (ev_device_id event) = true →
   _on_device_event c event = Ok c ∧
   ∀ data, _on_device_event c (mkEvent (ev_device_id event) data) = Ok c) ∧
  (Py.hashable (ev_device_id event) = false →
   ∀ data,
     _on_device_event c (mkEvent (ev_device_id event) data) = Raise TypeError).
Proof.
  intros Hnone. unfold after_event, _on_device_event. cbn [ev_device_id].
  destruct (ev_device_id event) as [| | | |id| |] eqn:Hid; cbn [Py.hashable negb].
  all: try rewrite (Hnone id eq_refl).
  all: repeat split; try done.
Qed.

(** C2, amended: on a THSensor device, every top-level key of the incoming
    data other than [state], [online] and [reportAt], unless it is one of
    [temperature], [humidity], [mode], [version] with a null value, is
    copied with its value into the nested [state] mapping of the resulting
    snapshot, and stays a top-level key of the snapshot with that value. *)
Theorem th_flat_keys_copied c event id dev d k v :
  ev_device_id event = VStr id →
  _devices c !! id = Some dev →
  device_type dev = "THSensor" →
  ev_data event = VDict d →
  d !! k = Some v →
  k ∉ th_reserved →
  ¬ (v = VNone ∧ k ∈ th_nullable) →
  let snapshot := get_state (after_event c event) id in
  snapshot !! k = Some v ∧
  ∃ m, snapshot !! "state" = Some (VDict m) ∧ m !! k = Some v.
Proof.
  intros Hid Hdev Hty Hd Hk Hres Hnull snapshot. subst snapshot.
  rewrite (snapshot_after_th _ _ _ _ Hid Hdev Hty), Hd. unfold th_merge.
  set (e := get_state c id).
  assert (Hm : th_fold d (th_state_obj e d) !! k = Some v).
  { rewrite th_fold_lookup, Hk.
    rewrite bool_decide_eq_false_2 by done.
    destruct (Py.is_none v && bool_decide (k ∈ th_nullable)) eqn:Hb; [|done].
    apply andb_true_iff in Hb as [Hv Hin]. apply bool_decide_eq_true in Hin.
    destruct v; try discriminate. by destruct Hnull. }
  assert (Hks : k ≠ "state").
  { intros ->. apply Hres, list_elem_of_here. }
  rewrite bool_decide_eq_false_2.
  2:{ intros Hemp. rewrite Hemp, lookup_empty in Hm. done. }
  split.
  - rewrite lookup_insert_ne by done. unfold Py.overlay.
    by apply lookup_union_Some_l.
  - eexists. rewrite lookup_insert_eq. split; [reflexivity|]. exact Hm.
Qed.

Lemma th_nullable_not_reserved k : k ∈ th_nullable → k ∉ th_reserved.
Proof.
  unfold th_nullable, th_reserved. rewrite !elem_of_cons, !elem_of_nil.
  intros [->|[->|[->|[->|[]]]]] [?|[?|[?|[]]]]; discriminate.
Qed.

(** C3, amended: on a THSensor device, when the incoming data maps
    [temperature], [humidity], [mode] or [version] to null at top level, and
    its own nested [state], if a mapping, does not carry that field, the
    value the snapshot's nested [state] mapping had for the field is kept. *)
Theorem th_null_keeps_known_value c event id dev d es k v0 :
  ev_device_id event = VStr id →
  _devices c !! id = Some dev →
  device_type dev = "THSensor" →
  ev_data event = VDict d →
  get_state c id !! "state" = Some (VDict es) →
  es !! k = Some v0 →
  k ∈ th_nullable →
  d !! k = Some VNone →
  (∀ ds, d !! "state" = Some (VDict ds) → ds !! k = None) →
  ∃ m, get_state (after_event c event) id !! "state"
         = Some (VDict m) ∧ m !! k = Some v0.
Proof.
  intros Hid Hdev Hty Hd Hes Hv0 Hnullable Hk Hnested.
  rewrite (snapshot_after_th _ _ _ _ Hid Hdev Hty), Hd. unfold th_merge.
  set (e := get_state c id) in *.
  assert (Hks : k ≠ "state").
  { intros ->. apply (th_nullable_not_reserved _ Hnullable), list_elem_of_here. }
  assert (Hm : th_fold d (th_state_obj e d) !! k = Some v0).
  { rewrite th_fold_lookup, Hk.
    rewrite bool_decide_eq_false_2 by by apply th_nullable_not_reserved.
    rewrite bool_decide_eq_true_2 by done. simpl.
    unfold th_state_obj, Py.get. rewrite Hes. simpl.
    destruct (d !! "state") as [so|] eqn:Hso; simpl; [|done].
    destruct so; simpl; try by rewrite lookup_insert_ne.
    - done.
    - rewrite lookup_union, (Hnested _ eq_refl), Hv0. done. }
  rewrite bool_decide_eq_false_2.
  2:{ intros Hemp. rewrite Hemp, lookup_empty in Hm. done. }
  eexists. rewrite lookup_insert_eq. split; [reflexivity|exact Hm].
Qed.

(** C4: on a device of another family than THSensor, when the existing
    snapshot and the incoming data both have a [state] key: an incoming
    mapping replaces an existing non-mapping; an incoming non-mapping is
    stored under the [state] sub-field of the existing mapping, whose other
    sub-fields stay; two mappings are merged field by field, the incoming
    value winning. *)
Theorem general_merge_state_cases c event id dev d eo so :
  ev_device_id event = VStr id →
  _devices c !! id = Some dev →
  device_type dev ≠ "THSensor" →
  ev_data event = VDict d →
  get_state c id !! "state" = Some eo →
  d !! "state" = Some so →
  let snapshot := get_state (after_event c event) id in
  (∀ s, so = VDict s → Py.is_dict eo = false →
        snapshot !! "state" = Some (VDict s)) ∧
  (∀ e, eo = VDict e → Py.is_dict so = false →
        snapshot !! "state" = Some (VDict (<["state" := so]> e))) ∧
  (∀ e s, eo = VDict e → so = VDict s →
        snapshot !! "state" = Some (VDict (s ∪ e)) ∧
        ∀ f, (s ∪ e) !! f = match s !! f with Some x => Some x | None => e !! f end).
Proof.
  intros Hid Hdev Hty Hd Heo Hso snapshot. subst snapshot.
  rewrite (snapshot_after_general _ _ _ _ Hid Hdev Hty), Hd.
  unfold general_merge. rewrite Heo, Hso.
  split; [|split].
  - intros s -> Hnd. destruct eo; try discriminate; by rewrite lookup_insert_eq.
  - intros e -> Hnd. destruct so; try discriminate; by rewrite lookup_insert_eq.
  - intros e s -> ->. split; [by rewrite lookup_insert_eq|].
    intros f. rewrite lookup_union. by destruct (s !! f), (e !! f).
Qed.

(** The nested state object of a snapshot, as the THSensor branch reads it. *)
Lemma th_state_obj_nested e :
  th_state_obj e ∅ = match Py.get e "state" with VDict es => es | _ => ∅ end.
Proof. unfold th_state_obj, Py.get. by rewrite lookup_empty. Qed.

Lemma th_merge_dict e d :
  th_merge e (VDict d) =
    let merged := th_fold d (th_state_obj ∅ d) ∪ th_state_obj e ∅ in
    if bool_decide (merged = ∅) then d ∪ e
    else <["state" := VDict merged]> (d ∪ e).
Proof. unfold th_merge. by rewrite th_merged_union. Qed.

Lemma th_merge_not_dict e data :
  Py.is_dict data = false → th_merge e data = th_merge e (VDict ∅).
Proof. by destruct data. Qed.

Lemma get_insert (m : pydict) k v : Py.get (<[k := v]> m) k = v.
Proof. unfold Py.get. by rewrite lookup_insert_eq. Qed.

Lemma dict_union_empty_r (m1 m2 : pydict) : m1 ∪ m2 = ∅ → m2 = ∅.
Proof.
  intros H. pose proof (map_positive_l _ _ H) as H1.
  by rewrite H1, (left_id_L ∅ _) in H.
Qed.

(** When nothing is folded, the event carries no nested state of its own. *)
Lemma th_fixed_part_empty e d :
  th_fold d (th_state_obj ∅ d) = ∅ → th_state_obj e ∅ = ∅ →
  th_state_obj (d ∪ e) ∅ = ∅.
Proof.
  rewrite th_fold_union. intros Hfix%dict_union_empty_r Hnested.
  rewrite th_state_obj_nested in *. revert Hfix.
  unfold th_state_obj, Py.get. rewrite lookup_union, lookup_empty.
  destruct (d !! "state") as [so|]; simpl.
  - destruct (e !! "state"); simpl; destruct so; simpl; try done.
    all: try (by intros ?%insert_non_empty).
    all: by rewrite (right_id_L ∅ _).
  - by rewrite (left_id_L None _).
Qed.

(** For a fixed incoming mapping the THSensor merge is idempotent. *)
Lemma th_merge_dict_idemp e d :
  th_merge (th_merge e (VDict d)) (VDict d) = th_merge e (VDict d).
Proof.
  rewrite (th_merge_dict e d). simpl.
  set (fixed := th_fold d (th_state_obj ∅ d)).
  case_bool_decide as Hemp.
  - assert (Hfix : fixed = ∅) by by apply map_positive_l in Hemp.
    assert (Hnested : th_state_obj e ∅ = ∅).
    { by rewrite Hfix, (left_id_L ∅ _) in Hemp. }
    rewrite th_merge_dict. simpl. fold fixed.
    rewrite (th_fixed_part_empty e d Hfix Hnested), Hfix, (left_id_L ∅ _).
    rewrite bool_decide_eq_true_2 by done.
    by rewrite (assoc_L (∪)), (idemp_L (∪)).
  - rewrite th_merge_dict. simpl. fold fixed.
    rewrite (th_state_obj_nested (<["state" := _]> _)).
    rewrite get_insert.
    rewrite (assoc_L (∪)), (idemp_L (∪)).
    rewrite bool_decide_eq_false_2 by done.
    apply map_eq; intros k.
    destruct (decide (k = "state")) as [->|Hk].
    + by rewrite !lookup_insert_eq.
    + rewrite !lookup_insert_ne by done.
      rewrite !lookup_union, lookup_insert_ne by done.
      rewrite lookup_union. by destruct (d !! k), (e !! k).
Qed.

Lemma th_merge_idemp e data : th_merge (th_merge e data) data = th_merge e data.
Proof.
  destruct (Py.is_dict data) eqn:Hd.
  - destruct data; try discriminate. apply th_merge_dict_idemp.
  - rewrite !(th_merge_not_dict _ data) by done. apply th_merge_dict_idemp.
Qed.

Lemma overlay_twice e d : Py.overlay (Py.overlay e d) d = Py.overlay e d.
Proof. unfold Py.overlay. by rewrite (assoc_L (∪)), (idemp_L (∪)). Qed.

Lemma overlay_insert_twice e d k x y :
  <[k := x]> (Py.overlay (<[k := y]> (Py.overlay e d)) d)
  = <[k := x]> (Py.overlay e d).
Proof.
  unfold Py.overlay. apply map_eq; intros i.
  destruct (decide (i = k)) as [->|Hi].
  - by rewrite !lookup_insert_eq.
  - rewrite !lookup_insert_ne by done.
    rewrite !lookup_union, lookup_insert_ne by done.
    rewrite lookup_union. by destruct (d !! i), (e !! i).
Qed.

Lemma overlay_lookup_r e d k : d !! k = None → Py.overlay e d !! k = e !! k.
Proof. intros H. unfold Py.overlay. by rewrite lookup_union, H, (left_id_L None _). Qed.

Lemma overlay_lookup_l e d k v : d !! k = Some v → Py.overlay e d !! k = Some v.
Proof. intros H. unfold Py.overlay. by apply lookup_union_Some_l. Qed.

(** For a fixed incoming mapping the general merge is idempotent. *)
Lemma general_merge_idemp e data n :
  general_merge e data = Ok n → general_merge n data = Ok n.
Proof.
  destruct data as [| | | | | |d]; try discriminate.
  unfold general_merge. intros [= <-]. f_equal.
  destruct (d !! "state") as [so|] eqn:Hso.
  2:{ destruct (e !! "state"); destruct (Py.overlay _ _ !! "state");
        apply overlay_twice. }
  destruct (e !! "state") as [eo|] eqn:Heo.
  2:{ rewrite (overlay_lookup_l e d _ _ Hso), overlay_twice.
      destruct so; try done.
      unfold Py.overlay at 1. rewrite (idemp_L (∪)).
      apply insert_id. by apply overlay_lookup_l. }
  destruct eo, so; rewrite ?lookup_insert_eq, ?(overlay_lookup_l e d _ _ Hso);
    rewrite ?overlay_insert_twice, ?overlay_twice, ?insert_insert_eq; try done.
  all: unfold Py.overlay at 1; by rewrite (idemp_L (∪)).
Qed.

Lemma states_after_twice c event :
  _states (after_event (after_event c event) event) = _states (after_event c event).
Proof.
  unfold after_event at 2 3. unfold _on_device_event.
  destruct (ev_device_id event) as [| | | |id| |] eqn:Hid;
    cbn [Py.hashable negb];
    try (unfold after_event, _on_device_event; by rewrite Hid).
  destruct (_devices c !! id) as [dev|] eqn:Hdev.
  2:{ unfold after_event, _on_device_event. rewrite Hid.
      cbn [Py.hashable negb]. by rewrite Hdev. }
  destruct (String.eqb (device_type dev) "THSensor") eqn:Hty.
  - unfold after_event, _on_device_event. rewrite Hid. simpl.
    rewrite Hdev, Hty. simpl.
    unfold get_state at 1. simpl. rewrite lookup_insert_eq. simpl.
    by rewrite th_merge_idemp, insert_insert_eq.
  - destruct (general_merge (get_state c id) (ev_data event))
      as [n|x] eqn:Hm.
    + unfold after_event, _on_device_event. rewrite Hid. simpl.
      rewrite Hdev, Hty.
      unfold get_state at 1. simpl. rewrite lookup_insert_eq. simpl.
      rewrite (general_merge_idemp _ _ _ Hm). simpl.
      by rewrite insert_insert_eq.
    + unfold after_event, _on_device_event. rewrite Hid.
      cbn [Py.hashable negb]. by rewrite Hdev, Hty, Hm.
Qed.
(** C8: handling the same event twice in a row leaves the store as
    handling it once does; both merges are idempotent for a fixed incoming
    value, and the general merge does return a snapshot for every
    mapping. *)
Theorem event_applied_twice c event :
  _states (after_event (after_event c event) event)
  = _states (after_event c event) ∧
  (∀ e data, th_merge (th_merge e data) data = th_merge e data) ∧
  (∀ e d, ∃ n, general_merge e (VDict d) = Ok n ∧
               general_merge n (VDict d) = Ok n).
Proof.
  split; [apply states_after_twice|]. split; [apply th_merge_idemp|].
  intros e d. destruct (general_merge e (VDict d)) as [n|x] eqn:Hm.
  - exists n. split; [done|]. exact (general_merge_idemp _ _ _ Hm).
  - discriminate.
Qed.

End HandlerFacts.

(** ** The standalone tooling *)

Section ToolingFacts.
Import Tooling.
Implicit Types (e d m payload : pydict) (k : string) (v : value).

Lemma contains_spec d k : Py.contains d k = match d !! k with Some _ => true | None => false end.
Proof.
  unfold Py.contains. destruct (d !! k) eqn:H.
  - by apply bool_decide_eq_true_2.
  - apply bool_decide_eq_false_2. by intros [? ?].
Qed.

Lemma normalize_selection payload :
  (let raw_data := Py.get payload "data" in
   let raw_data :=
     if Py.is_none raw_data then
       match Py.get payload "params" with
       | VDict params => Py.get_or params "data" (VDict params)
       | _ => raw_data
       end
     else raw_data in
   if Py.is_none raw_data && Py.contains payload "state"
   then VDict {["state" := Py.get payload "state"]}
   else raw_data)
  = first_non_null [rule_data payload; rule_params payload; rule_state payload].
Proof.
  unfold rule_data, rule_params, rule_state, Py.get, Py.get_or. simpl.
  rewrite contains_spec.
  destruct (payload !! "data") as [dv|]; simpl.
  - destruct dv; simpl; try done.
    destruct (payload !! "params") as [[]|]; simpl;
      try (by destruct (payload !! "state")).
    destruct (d !! "data") as [[]|]; simpl; try done;
      by destruct (payload !! "state").
  - destruct (payload !! "params") as [[]|]; simpl;
      try (by destruct (payload !! "state")).
    destruct (d !! "data") as [[]|]; simpl; try done;
      by destruct (payload !! "state").
Qed.

Lemma copy_if_absent_code key (b : bool) x data :
  (if negb (Py.contains data key) && b then <[key := x]> data else data)
  = copy_if_absent key (if b then Some x else None) data.
Proof.
  unfold copy_if_absent. rewrite contains_spec.
  by destruct (data !! key), b.
Qed.

Lemma truthy_time payload :
  (if Py.truthy (Py.get payload "time")
   then Some (Py.get payload "time") else None)
  = match payload !! "time" with
    | Some t => if Py.truthy t then Some t else None
    | None => None
    end.
Proof. unfold Py.get. by destruct (payload !! "time"). Qed.

Lemma present_online payload :
  (if Py.contains payload "online"
   then Some (Py.get payload "online") else None)
  = payload !! "online".
Proof.
  rewrite contains_spec. unfold Py.get. by destruct (payload !! "online").
Qed.

(** C6, amended: the normalizer computes what the amended description
    says, for every payload mapping: the first rule, in order, yielding a
    non-null value selects the data (top-level [data]; the [data] sub-key of
    a [params] mapping when present, else that whole mapping; the top-level
    [state], wrapped), a selected non-mapping is wrapped under [state], and
    nothing selected gives the empty mapping; [time] is copied in as
    [reportAt] when [reportAt] is absent and [time] is truthy; [online] is
    copied in when absent from the data and present in the payload; the
    device identifier is [deviceId], or the empty string.  The function is
    total: no payload makes it raise. *)
Theorem normalize_event_payload_refines payload :
  normalize_event_payload payload = normalize_event_payload_spec payload.
Proof.
  unfold normalize_event_payload, normalize_event_payload_spec.
  pose proof (normalize_selection payload) as Hsel.
  cbv zeta in Hsel |- *. rewrite Hsel. clear Hsel.
  set (sel := first_non_null _).
  f_equal.
  assert (Hmap : match sel with VDict d => d | VNone => ∅ | _ => {["state" := sel]} end
                 = as_mapping sel) by by destruct sel.
  rewrite Hmap.
  by rewrite !copy_if_absent_code, truthy_time, present_online.
Qed.

(** What the loop of [merge_state] leaves in both dictionaries. *)
Lemma merge_fold_lookup d m n k :
  let acc := map_fold merge_step (m, n) d in
  acc.1 !! k =
    match d !! k with
    | Some v => if bool_decide (k ∈ merge_reserved) then m !! k else Some v
    | None => m !! k
    end ∧
  acc.2 !! k =
    match d !! k with
    | Some v => if bool_decide (k ∈ merge_reserved) then n !! k else None
    | None => n !! k
    end.
Proof.
  simpl. revert k.
  apply (map_fold_weak_ind
    (λ acc d', ∀ k,
       acc.1 !! k =
         match d' !! k with
         | Some v => if bool_decide (k ∈ merge_reserved) then m !! k else Some v
         | None => m !! k
         end ∧
       acc.2 !! k =
         match d' !! k with
         | Some v => if bool_decide (k ∈ merge_reserved) then n !! k else None
         | None => n !! k
         end)).
  - intros k. by rewrite lookup_empty.
  - intros i x d' [m' n'] Hi IH k. unfold merge_step. simpl.
    destruct (IH k) as [IH1 IH2]. simpl in IH1, IH2.
    destruct (decide (k = i)) as [->|Hne].
    + rewrite lookup_insert_eq. rewrite Hi in IH1, IH2.
      destruct (bool_decide (i ∈ merge_reserved)); simpl; [done|].
      by rewrite lookup_insert_eq, lookup_delete_eq.
    + rewrite (lookup_insert_ne d' i k) by done.
      destruct (bool_decide (i ∈ merge_reserved)); simpl; [done|].
      by rewrite lookup_insert_ne, lookup_delete_ne.
Qed.

(** C10: in the tooling's [merge_state], when the existing snapshot's
    [state] is a mapping, every top-level key of the event data other than
    [state], [online] and [reportAt] ends up in the nested [state] mapping
    with its value, null or not, and is no top-level key of the result. *)
Theorem merge_state_folds_flat_keys existing event_data es k v :
  existing !! "state" = Some (VDict es) →
  event_data !! k = Some v →
  k ∉ merge_reserved →
  merge_state existing event_data !! k = None ∧
  ∃ m, merge_state existing event_data !! "state" = Some (VDict m) ∧
       m !! k = Some v.
Proof.
  intros Hes Hk Hres. unfold merge_state, Py.get. rewrite Hes. simpl.
  assert (Hks : k ≠ "state").
  { intros ->. apply Hres. unfold merge_reserved.
    rewrite !elem_of_cons. auto. }
  set (m0 := match default VNone (event_data !! "state") with
             | VDict ds => ds ∪ es
             | VNone => es
             | _ => _
             end).
  destruct (merge_fold_lookup event_data m0 (Py.overlay existing event_data) k)
    as [H1 H2].
  rewrite Hk, bool_decide_eq_false_2 in H1, H2 by done.
  split.
  - by rewrite lookup_insert_ne.
  - eexists. rewrite lookup_insert_eq. split; [reflexivity|exact H1].
Qed.
End ToolingFacts.

Section DescriptorFacts.
Import DeviceModel.

Lemma length_substring n m s :
  (n + m ≤ String.length s)%nat → String.length (String.substring n m s) = m.
Proof.
  revert n m. induction s as [|a s IH]; intros n m Hlen; simpl in *.
  - assert (n = 0 ∧ m = 0)%nat as [-> ->] by lia. done.
  - destruct n as [|n].
    + destruct m as [|m]; [done|]. simpl. f_equal. apply IH. lia.
    + apply IH. lia.
Qed.

Lemma long_not_empty s : (10 ≤ String.length s)%nat → String.eqb s "" = false.
Proof. destruct s; simpl; [lia|done]. Qed.

(** [from_api] on an identity string of ten characters or more. *)
Lemma from_api_long data e :
  r_appEui data = Some e → (10 ≤ String.length e)%nat →
  let code := String.substring 6 4 e in
  model (from_api data) = Some ("YS" +:+ code +:+ "-UC") ∧
  display_type (from_api data) =
    (if String.eqb code "7706" then "TiltSensor"
     else if String.eqb code "8004" then "TempSensor"
     else r_type data).
Proof.
  intros He Hlen code. unfold from_api, Py.slice. rewrite He.
  rewrite (long_not_empty _ Hlen), (proj2 (Nat.leb_le _ _) Hlen).
  cbn [negb]. change (10 - 6)%nat with 4%nat. fold code.
  by destruct (String.eqb code "7706"); [|destruct (String.eqb code "8004")].
Qed.

(** [from_api] without a usable identity string. *)
Lemma from_api_short data :
  match r_appEui data with
  | Some e => (String.length e < 10)%nat
  | None => True
  end →
  model (from_api data) = None ∧ display_type (from_api data) = r_type data.
Proof.
  unfold from_api. destruct (r_appEui data) as [e|]; [|done].
  intros Hlen. rewrite (proj2 (Nat.leb_gt _ _) Hlen).
  by destruct (negb (String.eqb e "")).
Qed.

(** The tooling's override agrees with the integration's. *)
Lemma normalize_display_type_from_api data :
  Tooling.normalize_display_type (r_type data) (r_appEui data)
  = display_type (from_api data).
Proof.
  unfold Tooling.normalize_display_type, Tooling.model_num_from_app_eui.
  destruct (r_appEui data) as [e|] eqn:He.
  2:{ by destruct (from_api_short data) as [_ ->]; [rewrite He|]. }
  destruct (le_lt_dec 10 (String.length e)) as [Hlen|Hlen].
  - destruct (from_api_long data e He Hlen) as [_ ->].
    rewrite (long_not_empty _ Hlen), (proj2 (Nat.leb_le _ _) Hlen).
    cbn [negb andb]. unfold Py.slice. change (10 - 6)%nat with 4%nat.
    set (code := String.substring 6 4 e).
    destruct (String.eqb_spec code "7706") as [->|H7]; [done|].
    rewrite bool_decide_eq_false_2 by congruence.
    destruct (String.eqb_spec code "8004") as [->|H8]; [done|].
    by rewrite bool_decide_eq_false_2 by congruence.
  - destruct (from_api_short data) as [_ ->]; [by rewrite He|].
    rewrite (proj2 (Nat.leb_gt _ _) Hlen), andb_false_r. done.
Qed.

(** C7: the model is null unless the identity string has ten characters
    or more; then the code is the four characters at offset 6 and the model
    is "YS" code "-UC".  The display type is the reported type, except that
    code 7706 gives TiltSensor and code 8004 gives TempSensor; the tooling's
    [normalize_display_type] computes the same display type. *)
Theorem from_api_model_and_display data :
  let dev := from_api data in
  (∀ e, r_appEui data = Some e → (10 ≤ String.length e)%nat →
     let code := String.substring 6 4 e in
     String.length code = 4%nat ∧
     model dev = Some ("YS" +:+ code +:+ "-UC") ∧
     display_type dev =
       (if String.eqb code "7706" then "TiltSensor"
        else if String.eqb code "8004" then "TempSensor"
        else r_type data)) ∧
  (∀ e, r_appEui data = Some e → (String.length e < 10)%nat →
     model dev = None ∧ display_type dev = r_type data) ∧
  (r_appEui data = None →
     model dev = None ∧ display_type dev = r_type data) ∧
  device_type dev = r_type data ∧
  Tooling.normalize_display_type (r_type data) (r_appEui data) = display_type dev.
Proof.
  intros dev. subst dev. split; [|split; [|split; [|split]]].
  - intros e He Hlen code. split.
    + apply length_substring. lia.
    + by apply from_api_long.
  - intros e He Hlen. apply from_api_short. by rewrite He.
  - intros He. apply from_api_short. by rewrite He.
  - unfold from_api. by repeat case_match.
  - apply normalize_display_type_from_api.
Qed.
End DescriptorFacts.

(** ** Availability and start-up *)

Section AvailabilityFacts.
Import Entity.
Variable datetime : Type.
Variable parse_datetime : value → result (option datetime).
Variable utcnow : datetime.
Variable dt_sub : datetime → datetime → result Z.

(** The parser finds no date-time in a falsy value: the empty string does
    not match, and [None], [0] or [False] are not strings. *)
Hypothesis parse_datetime_falsy :
  ∀ r t, parse_datetime r = Ok (Some t) → Py.truthy r = true.

Local Abbreviation available :=
  (Entity.available datetime parse_datetime utcnow dt_sub).

(** C9, amended: a snapshot without the [online] key is treated as one
    whose [online] is true, and with no [reportAt] either the entity is
    available whenever the coordinator is.  For a snapshot whose [reportAt]
    parses to a date-time: when the current time minus that date-time is
    more than twelve hours, the entity is unavailable, whatever [online]
    says; when it is twelve hours or less, or when the subtraction raises
    (as it does for a date-time without UTC offset), the entity is available
    exactly when the coordinator is and [online] is truthy or absent. *)
Theorem available_online_default_and_stale coordinator_available (state : pydict) :
  (state !! "online" = None →
     available coordinator_available state
     = available coordinator_available (<["online" := VBool true]> state)) ∧
  (state !! "online" = None → state !! "reportAt" = None →
     available coordinator_available state = coordinator_available) ∧
  (∀ r t,
     state !! "reportAt" = Some r →
     parse_datetime r = Ok (Some t) →
     let unless_stale :=
       coordinator_available
       && Py.truthy (Py.get_or state "online" (VBool true)) in
     (∀ delta, dt_sub utcnow t = Ok delta → delta > twelve_hours →
        available coordinator_available state = false) ∧
     (∀ delta, dt_sub utcnow t = Ok delta → delta ≤ twelve_hours →
        available coordinator_available state = unless_stale) ∧
     (∀ e, dt_sub utcnow t = Raise e →
        available coordinator_available state = unless_stale)).
Proof.
  unfold Entity.available, Py.get_or, Py.get.
  split; [|split].
  - intros Hon. rewrite Hon, lookup_insert_eq.
    by rewrite lookup_insert_ne.
  - intros Hon Hrep. rewrite Hon, Hrep. simpl. by destruct coordinator_available.
  - intros r t Hrep Hparse. cbv zeta.
    rewrite Hrep. cbn [default from_option id].
    rewrite (parse_datetime_falsy _ _ Hparse), Hparse.
    split; [|split].
    + intros delta Hsub Hdelta. rewrite Hsub.
      rewrite (proj2 (Z.gtb_gt _ _)) by lia.
      destruct coordinator_available; simpl; [|done]. by destruct (negb _).
    + intros delta Hsub Hdelta. rewrite Hsub.
      assert ((delta >? twelve_hours) = false) as ->.
      { destruct (Z.gtb_spec delta twelve_hours); [lia|done]. }
      destruct coordinator_available; simpl; [|done].
      by destruct (Py.truthy _).
    + intros e Hsub. rewrite Hsub.
      destruct coordinator_available; simpl; [|done].
      by destruct (Py.truthy _).
Qed.
End AvailabilityFacts.

Section StartupFacts.
Import DeviceModel Coordinator Startup.
Implicit Types (h : hub) (w : world).

(** Fetching the first snapshots never raises and touches only the log. *)
Lemma fetch_states_ok h devices : ∀ states w,
  ∃ states' w',
    fetch_states h devices states w = (Ok states', w') ∧
    session_open w' = session_open w ∧
    token_calls w' = token_calls w.
Proof.
  induction devices as [|device rest IH]; intros states w; simpl.
  - by exists states, w.
  - unfold mbind, M_bind, try_except, lift, mret, M_ret, write_log. simpl.
    destruct (get_state_of h device) as [state|x]; simpl.
    + apply IH.
    + destruct (IH (<[device_id device := ∅]> states)
                  {| session_open := session_open w; token_calls := token_calls w;
                     mqtt_loop_started := mqtt_loop_started w;
                     log := LogWarning "Failed to get initial state" :: log w |})
        as (s' & w' & -> & ? & ?).
      by exists s', w'.
Qed.

(** [_connect_mqtt] propagates only a failure of the token request. *)
Lemma connect_mqtt_outcome h w :
  let w1 := (call_get_token h w).2 in
  match get_token h (token_calls w) with
  | Raise e => _connect_mqtt h w = (Raise e, w1)
  | Ok _ =>
      ∃ w', _connect_mqtt h w = (Ok tt, w') ∧
            session_open w' = session_open w ∧
            (connected_in_time h = false →
             LogException "Failed to connect to MQTT broker" ConnectionError ∈ log w')
  end.
Proof.
  unfold _connect_mqtt, call_get_token, mbind, M_bind, try_except, connect,
    loop_start, write_log, raise, mret, M_ret. simpl.
  destruct (get_token h (token_calls w)); [|done].
  destruct (connected_in_time h); simpl; eexists; split; try reflexivity; simpl.
  - done.
  - split; [done|]. intros _. apply list_elem_of_here.
Qed.

(** The three ways [create_coordinator] can end. *)
Lemma create_coordinator_outcome h :
  match get_token h 0 with
  | Raise e => ∃ w, create_coordinator h = (Raise e, w) ∧ session_open w = false
  | Ok _ =>
      match get_devices h with
      | Raise e => ∃ w, create_coordinator h = (Raise e, w) ∧ session_open w = false
      | Ok devices =>
          match get_token h 1 with
          | Raise e =>
              ∃ w, create_coordinator h = (Raise e, w) ∧ session_open w = false
          | Ok _ =>
              ∃ c w, create_coordinator h = (Ok c, w) ∧
                     session_open w = true ∧
                     _devices c = registry_of devices ∧
                     (connected_in_time h = false →
                      LogException "Failed to connect to MQTT broker"
                        ConnectionError ∈ log w)
          end
      end
  end.
Proof.
  unfold create_coordinator.
  cbv [try_except mbind M_bind call_get_token lift _async_setup
       session_close raise mret M_ret fresh_world].
  cbn [token_calls session_open mqtt_loop_started log].
  destruct (get_token h 0) as [tok|e].
  2:{ eexists; split; [reflexivity|done]. }
  destruct (get_devices h) as [devices|e].
  2:{ eexists; split; [reflexivity|done]. }
  destruct (fetch_states_ok h devices ∅
              {| session_open := true; token_calls := 1;
                 mqtt_loop_started := false; log := [] |})
    as (states & w1 & -> & Hs & Ht). cbn in Hs, Ht.
  pose proof (connect_mqtt_outcome h w1) as Hc. cbn zeta in Hc.
  rewrite Ht in Hc.
  destruct (get_token h 1) as [tok2|e].
  - destruct Hc as (w2 & -> & Hs2 & Hlog).
    eexists _, w2. split; [reflexivity|]. cbn. by rewrite Hs2, Hs.
  - rewrite Hc. eexists; split; [reflexivity|done].
Qed.

(** C5, as the code behaves: when the broker does not acknowledge the
    connection in time, [connect] raises [ConnectionError], but
    [_connect_mqtt] catches it and only logs it.  So [create_coordinator],
    once the token and the device list are obtained, returns a coordinator
    that is not connected and leaves the session open, where the claim, and
    the function's own documentation ("Returns a fully-initialized,
    connected coordinator", "Raises: Exception: If setup fails"), have the
    error surface.  Whenever [create_coordinator] does raise, the error is
    that of a token or device-list request and the session has been
    closed. *)
Theorem mqtt_timeout_logged_not_raised h :
  connected_in_time h = false →
  (∀ w, (connect h w).1 = Raise ConnectionError) ∧
  (∀ tok1 tok2 devices,
     get_token h 0 = Ok tok1 → get_token h 1 = Ok tok2 →
     get_devices h = Ok devices →
     ∃ c w, create_coordinator h = (Ok c, w) ∧
            session_open w = true ∧
            _devices c = registry_of devices ∧
            LogException "Failed to connect to MQTT broker" ConnectionError
              ∈ log w) ∧
  (∀ e w, create_coordinator h = (Raise e, w) →
     session_open w = false ∧
     (get_token h 0 = Raise e ∨ get_devices h = Raise e ∨
      get_token h 1 = Raise e)).
Proof.
  intros Hto. pose proof (create_coordinator_outcome h) as Hout.
  split; [|split].
  - intros w. unfold connect, mbind, M_bind, loop_start, raise. simpl.
    by rewrite Hto.
  - intros tok1 tok2 devices H0 H1 Hd. rewrite H0, Hd, H1 in Hout.
    destruct Hout as (c & w & Hc & Hs & Hr & Hlog).
    exists c, w. auto.
  - intros e w Hc.
    destruct (get_token h 0) as [tok1|e0].
    2:{ destruct Hout as (w' & Hc' & Hs). rewrite Hc in Hc'.
        injection Hc' as -> ->. auto. }
    destruct (get_devices h) as [devices|e0].
    2:{ destruct Hout as (w' & Hc' & Hs). rewrite Hc in Hc'.
        injection Hc' as -> ->. auto. }
    destruct (get_token h 1) as [tok2|e0].
    + destruct Hout as (c & w' & Hc' & _). rewrite Hc in Hc'. discriminate.
    + destruct Hout as (w' & Hc' & Hs). rewrite Hc in Hc'.
      injection Hc' as -> ->. auto.
Qed.
End StartupFacts.

(** ** Worked examples *)

Section Examples.
Import DeviceModel Coordinator Startup Tooling Samples.

(** An event for a device nobody registered, carrying a bare string; and
    an event whose identifier is a list. *)
Lemma unknown_device_event_dropped_witness :
  (_states (after_event home stranger_report) = _states home ∧
   dispatched (after_event home stranger_report) = dispatched home ∧
   _on_device_event home stranger_report = Ok home ∧
   ∀ data,
     _on_device_event home (mkEvent (ev_device_id stranger_report) data)
     = Ok home) ∧
  (_states (after_event home listed_id_report) = _states home ∧
   dispatched (after_event home listed_id_report) = dispatched home ∧
   ∀ data,
     _on_device_event home (mkEvent (ev_device_id listed_id_report) data)
     = Raise TypeError).
Proof.
  assert (Hs : ∀ id, ev_device_id stranger_report = VStr id →
                     _devices home !! id = None).
  { intros id [= <-]. reflexivity. }
  assert (Hl : ∀ id, ev_device_id listed_id_report = VStr id →
                     _devices home !! id = None).
  { intros id Hid. discriminate Hid. }
  destruct (unknown_device_event_dropped home stranger_report Hs)
    as (H1 & H2 & H3 & _).
  destruct (unknown_device_event_dropped home listed_id_report Hl)
    as (H4 & H5 & _ & H6).
  split.
  - split; [exact H1|]. split; [exact H2|]. exact (H3 eq_refl).
  - split; [exact H4|]. split; [exact H5|]. exact (H6 eq_refl).
Defined.

(** C2 as stated fails: a flat [humidity] reported by a THSensor is still
    a top-level key of the resulting snapshot. *)
Lemma th_flat_key_stays_at_top_level :
  _devices home_empty !! "th1" = Some th_device ∧
  ev_data humidity_report = VDict {[ "humidity" := VInt 55 ]} ∧
  get_state (after_event home_empty humidity_report) "th1" !! "humidity"
  = Some (VInt 55).
Proof. repeat split; vm_compute; reflexivity. Qed.

Lemma th_flat_keys_copied_witness :
  let snapshot := get_state (after_event home_empty humidity_report) "th1" in
  snapshot !! "humidity" = Some (VInt 55) ∧
  ∃ m, snapshot !! "state" = Some (VDict m) ∧ m !! "humidity" = Some (VInt 55).
Proof.
  apply (th_flat_keys_copied home_empty humidity_report "th1" th_device
           {[ "humidity" := VInt 55 ]} "humidity" (VInt 55)).
  - reflexivity.
  - reflexivity.
  - reflexivity.
  - reflexivity.
  - vm_compute. reflexivity.
  - unfold th_reserved. rewrite !elem_of_cons, elem_of_nil.
    intros [?|[?|[?|[]]]]; discriminate.
  - intros [? _]. discriminate.
Defined.

(** C3 as stated fails: with a null [temperature] both at top level and in
    its own nested [state], the report overwrites the known 21.5 by null. *)
Lemma th_nested_null_overwrites :
  get_state home "th1" !! "state"
  = Some (VDict {[ "temperature" := temp_21_5 ]}) ∧
  (∃ d, ev_data nested_null_report = VDict d ∧
        d !! "temperature" = Some VNone) ∧
  ∃ m, get_state (after_event home nested_null_report) "th1" !! "state"
         = Some (VDict m) ∧
       m !! "temperature" = Some VNone.
Proof.
  split; [vm_compute; reflexivity|]. split.
  - eexists. split; [reflexivity|]. vm_compute. reflexivity.
  - eexists. split; vm_compute; reflexivity.
Qed.

(** Merging [{temperature: null}] over [state.temperature = 21.5]. *)
Lemma th_null_keeps_known_value_witness :
  ∃ m, get_state (after_event home null_temperature_report) "th1" !! "state"
         = Some (VDict m) ∧
       m !! "temperature" = Some temp_21_5.
Proof.
  apply (th_null_keeps_known_value home null_temperature_report "th1"
           th_device flat_null_data {[ "temperature" := temp_21_5 ]}
           "temperature" temp_21_5).
  - reflexivity.
  - reflexivity.
  - reflexivity.
  - reflexivity.
  - vm_compute. reflexivity.
  - vm_compute. reflexivity.
  - apply list_elem_of_here.
  - vm_compute. reflexivity.
  - intros ds H. vm_compute in H. discriminate.
Defined.

(** The three cases on door sensors: a mapping over the string "closed",
    the string "open" over a mapping, and a mapping over a mapping. *)
Lemma general_merge_state_cases_witness :
  get_state (after_event home_closed door_battery_report) "door1" !! "state"
  = Some (VDict {[ "battery" := VInt 4 ]}) ∧
  get_state (after_event home door_open_report) "door1" !! "state"
  = Some (VDict (<["state" := VStr "open"]> {[ "battery" := VInt 3 ]})) ∧
  get_state (after_event home door_battery_report) "door1" !! "state"
  = Some (VDict ({[ "battery" := VInt 4 ]} ∪ {[ "battery" := VInt 3 ]})).
Proof.
  split; [|split].
  - refine (proj1 (general_merge_state_cases home_closed door_battery_report
              "door1" door_device
              {[ "state" := VDict {[ "battery" := VInt 4 ]} ]}
              (VStr "closed") (VDict {[ "battery" := VInt 4 ]}) _ _ _ _ _ _)
            {[ "battery" := VInt 4 ]} _ _);
      first [discriminate | reflexivity | vm_compute; reflexivity].
  - refine (proj1 (proj2 (general_merge_state_cases home door_open_report
              "door1" door_device {[ "state" := VStr "open" ]}
              (VDict {[ "battery" := VInt 3 ]}) (VStr "open") _ _ _ _ _ _))
            {[ "battery" := VInt 3 ]} _ _);
      first [discriminate | reflexivity | vm_compute; reflexivity].
  - refine (proj1 (proj2 (proj2 (general_merge_state_cases home
              door_battery_report "door1" door_device
              {[ "state" := VDict {[ "battery" := VInt 4 ]} ]}
              (VDict {[ "battery" := VInt 3 ]})
              (VDict {[ "battery" := VInt 4 ]}) _ _ _ _ _ _))
            {[ "battery" := VInt 3 ]} {[ "battery" := VInt 4 ]} _ _));
      first [discriminate | reflexivity | vm_compute; reflexivity].
Defined.

(** The input on which the code departs from C5: with a broker that never
    acknowledges, start-up succeeds and the session stays open. *)
Lemma silent_broker_startup_succeeds :
  connected_in_time silent_broker = false ∧
  ∃ c w, create_coordinator silent_broker = (Ok c, w) ∧ session_open w = true.
Proof. split; [reflexivity|]. eexists _, _. split; vm_compute; reflexivity. Qed.

Lemma mqtt_timeout_logged_not_raised_witness :
  (∃ c w, create_coordinator silent_broker = (Ok c, w) ∧
          session_open w = true ∧
          _devices c = registry_of [th_device; door_device] ∧
          LogException "Failed to connect to MQTT broker" ConnectionError
            ∈ log w) ∧
  session_open (create_coordinator mute_hub).2 = false.
Proof.
  split.
  - refine (proj1 (proj2 (mqtt_timeout_logged_not_raised silent_broker _))
              "token" "token" [th_device; door_device] _ _ _); reflexivity.
  - refine (proj1 (proj2 (proj2 (mqtt_timeout_logged_not_raised mute_hub _))
              ClientError (create_coordinator mute_hub).2 _)); reflexivity.
Defined.

(** C6 as stated fails: a payload whose [time] is 0 has the key, the data
    mapping lacks [reportAt], and yet nothing is copied. *)
Lemma normalize_zero_time_not_copied :
  zero_time_payload !! "time" = Some (VInt 0) ∧
  (normalize_event_payload zero_time_payload).2 !! "reportAt" = None.
Proof. split; vm_compute; reflexivity. Qed.

(** The identity string of the description gives model YS7804-UC and no
    override; code 7706 gives TiltSensor; eight characters, or no identity
    string, give no model. *)
Lemma from_api_model_and_display_witness :
  (String.length (String.substring 6 4 "d88b4c7804000000") = 4%nat ∧
   model (from_api sample_discovery) = Some "YS7804-UC" ∧
   display_type (from_api sample_discovery) = "THSensor") ∧
  (String.length (String.substring 6 4 "d88b4c7706000000") = 4%nat ∧
   model (from_api tilt_discovery) = Some "YS7706-UC" ∧
   display_type (from_api tilt_discovery) = "TiltSensor") ∧
  (model (from_api short_discovery) = None ∧
   display_type (from_api short_discovery) = "LeakSensor") ∧
  (model (from_api bare_discovery) = None ∧
   display_type (from_api bare_discovery) = "MotionSensor").
Proof.
  split; [|split; [|split]].
  - refine (proj1 (from_api_model_and_display sample_discovery)
              "d88b4c7804000000" _ _); [reflexivity | simpl; lia].
  - refine (proj1 (from_api_model_and_display tilt_discovery)
              "d88b4c7706000000" _ _); [reflexivity | simpl; lia].
  - refine (proj1 (proj2 (from_api_model_and_display short_discovery))
              "d88b4c78" _ _); [reflexivity | simpl; lia].
  - refine (proj1 (proj2 (proj2 (from_api_model_and_display bare_discovery))) _).
    reflexivity.
Defined.

(** A null [temperature] is moved into the nested state all the same. *)
Lemma merge_state_folds_flat_keys_witness :
  merge_state th_snapshot flat_null_data !! "temperature" = None ∧
  ∃ m, merge_state th_snapshot flat_null_data !! "state" = Some (VDict m) ∧
       m !! "temperature" = Some VNone.
Proof.
  apply (merge_state_folds_flat_keys th_snapshot flat_null_data
           {[ "temperature" := temp_21_5 ]} "temperature" VNone).
  - vm_compute. reflexivity.
  - vm_compute. reflexivity.
  - unfold merge_reserved. rewrite !elem_of_cons, elem_of_nil.
    intros [?|[?|[?|[]]]]; discriminate.
Defined.

Lemma sample_parse_falsy r t :
  sample_parse r = Ok (Some t) → Py.truthy r = true.
Proof.
  destruct r as [| | | |s| |]; try discriminate. unfold sample_parse.
  destruct (String.eqb_spec s "1970-01-01T00:00:00+00:00") as [->|]; [done|].
  destruct (String.eqb_spec s "1970-01-01T00:00:00") as [->|]; [done|].
  destruct (String.eqb_spec s "1970-01-02T18:00:00+00:00") as [->|]; [done|].
  discriminate.
Qed.

(** C9 as stated fails: a [reportAt] written without UTC offset parses to
    a date-time whose reading is two days before the current time, more
    than twelve hours whatever offset one reads it with; subtracting it from
    the current time raises, the error is swallowed and the entity stays
    available. *)
Lemma naive_stale_report_stays_available :
  naive_stale_snapshot !! "reportAt" = Some (VStr "1970-01-01T00:00:00") ∧
  (∃ t, sample_parse (VStr "1970-01-01T00:00:00") = Ok (Some t) ∧
        ∀ offset, - (24 * hour) ≤ offset ≤ 24 * hour →
          PyDatetime.wall sample_now - (PyDatetime.wall t - offset)
          > Entity.twelve_hours) ∧
  Entity.available PyDatetime.datetime sample_parse sample_now PyDatetime.sub
    true naive_stale_snapshot = true.
Proof.
  split; [vm_compute; reflexivity|]. split; [|vm_compute; reflexivity].
  eexists. split; [reflexivity|].
  intros offset [Hlo Hhi].
  unfold Entity.twelve_hours, sample_now, hour in *.
  cbn [PyDatetime.wall]. lia.
Qed.

(** A last report two days old, with no [online] key; a snapshot with
    neither key; a report six hours old from a device that is offline; and
    the two-day-old report written without its UTC offset. *)
Lemma available_online_default_and_stale_witness :
  let available :=
    Entity.available PyDatetime.datetime sample_parse sample_now
      PyDatetime.sub in
  available true stale_snapshot
  = available true (<["online" := VBool true]> stale_snapshot) ∧
  available true ∅ = true ∧
  available true stale_snapshot = false ∧
  available true fresh_offline_snapshot = false ∧
  available true naive_stale_snapshot = true.
Proof.
  pose proof (available_online_default_and_stale PyDatetime.datetime
                sample_parse sample_now PyDatetime.sub sample_parse_falsy)
    as H.
  cbv zeta. split; [|split; [|split; [|split]]].
  - refine (proj1 (H true stale_snapshot) _). vm_compute. reflexivity.
  - refine (proj1 (proj2 (H true ∅)) _ _); reflexivity.
  - refine (proj1 (proj2 (proj2 (H true stale_snapshot))
              (VStr "1970-01-01T00:00:00+00:00")
              (PyDatetime.mkDatetime 0 (Some 0)) _ _) (48 * hour) _ _).
    + vm_compute. reflexivity.
    + reflexivity.
    + reflexivity.
    + unfold Entity.twelve_hours, hour. lia.
  - refine (proj1 (proj2 (proj2 (proj2 (H true fresh_offline_snapshot))
              (VStr "1970-01-02T18:00:00+00:00")
              (PyDatetime.mkDatetime (42 * hour) (Some 0)) _ _))
              (6 * hour) _ _).
    + vm_compute. reflexivity.
    + reflexivity.
    + reflexivity.
    + unfold Entity.twelve_hours, hour. lia.
  - refine (proj2 (proj2 (proj2 (proj2 (H true naive_stale_snapshot))
              (VStr "1970-01-01T00:00:00")
              (PyDatetime.mkDatetime 0 None) _ _)) TypeError _).
    + vm_compute. reflexivity.
    + reflexivity.
    + reflexivity.
Defined.

End Examples.
(** ** More on the event handler *)

Section HandlerInvariants.
Import DeviceModel Coordinator.
Implicit Types (c : coordinator) (event : DeviceEvent) (id : string).
Implicit Types (e d m : pydict) (k : string) (v : value).



(** X2: the handler raises in exactly two cases: the identifier of the
    event cannot be hashed (a list or a mapping), so that the registry lookup
    raises; or a registered device of another family than THSensor receives
    data that is no mapping.  The error is [TypeError] in both. *)
Theorem handler_raises_exactly_when c event x :
  _on_device_event c event = Raise x ↔
  x = TypeError ∧
  (Py.hashable (ev_device_id event) = false ∨
   (Py.is_dict (ev_data event) = false ∧
    ∃ id dev, ev_device_id event = VStr id ∧
              _devices c !! id = Some dev ∧
              device_type dev ≠ "THSensor")).
Proof.
  unfold _on_device_event. split.
  - destruct (ev_device_id event) as [| | | |id| |] eqn:Hid;
      cbn [Py.hashable negb]; try done;
      try (intros [= <-]; split; [done|by left]).
    destruct (_devices c !! id) as [dev|] eqn:Hdev; [|done].
    destruct (String.eqb_spec (device_type dev) "THSensor") as [|Hne]; [done|].
    unfold general_merge.
    destruct (ev_data event); try done; intros [= <-];
      (split; [done|]); right; (split; [done|]); eauto.
  - intros (-> & [Hh|(Hnd & id & dev & Hid & Hdev & Hne)]).
    + by rewrite Hh.
    + rewrite Hid. cbn [Py.hashable negb]. rewrite Hdev.
      apply String.eqb_neq in Hne. rewrite Hne.
      by destruct (ev_data event).
Qed.

(** Apart from [state], the THSensor merge is the plain overlay. *)
Lemma th_merge_lookup_ne e d k :
  k ≠ "state" → th_merge e (VDict d) !! k = (d ∪ e) !! k.
Proof.
  intros Hk. unfold th_merge, Py.overlay. case_bool_decide; [done|].
  by rewrite lookup_insert_ne.
Qed.

(** Apart from [state], the general merge is the plain overlay. *)
Lemma general_merge_lookup_ne e d n k :
  general_merge e (VDict d) = Ok n → k ≠ "state" → n !! k = (d ∪ e) !! k.
Proof.
  unfold general_merge, Py.overlay. intros [= <-] Hk.
  repeat case_match; by rewrite ?lookup_insert_ne.
Qed.

Lemma th_merge_state_kept e d :
  is_Some ((d ∪ e) !! "state") → is_Some (th_merge e (VDict d) !! "state").
Proof.
  unfold th_merge, Py.overlay. case_bool_decide; [done|].
  rewrite lookup_insert_eq. by eexists.
Qed.

Lemma general_merge_state_kept e d n :
  general_merge e (VDict d) = Ok n →
  is_Some ((d ∪ e) !! "state") → is_Some (n !! "state").
Proof.
  unfold general_merge, Py.overlay. intros [= <-] Hs.
  repeat case_match; rewrite ?lookup_insert_eq; by eauto.
Qed.

(** The snapshot after a mapping was merged, whatever the family. *)
Lemma snapshot_after_mapping c event id dev d :
  ev_device_id event = VStr id →
  _devices c !! id = Some dev →
  ev_data event = VDict d →
  let old := get_state c id in
  let new := get_state (after_event c event) id in
  (device_type dev = "THSensor" ∧ new = th_merge old (VDict d)) ∨
  (device_type dev ≠ "THSensor" ∧ general_merge old (VDict d) = Ok new).
Proof.
  intros Hid Hdev Hd old new. subst old new.
  destruct (String.eqb_spec (device_type dev) "THSensor") as [Hty|Hty].
  - left. split; [done|].
    by rewrite (snapshot_after_th _ _ _ _ Hid Hdev Hty), Hd.
  - right. split; [done|].
    rewrite (snapshot_after_general _ _ _ _ Hid Hdev Hty), Hd. done.
Qed.

(** X3: merging a mapping never drops a key, for either family: apart
    from [state], every key of the incoming data ends with the incoming
    value, every other key keeps its value, and a key present before or in
    the data is present after. *)
Theorem merge_keeps_every_key c event id dev d :
  ev_device_id event = VStr id →
  _devices c !! id = Some dev →
  ev_data event = VDict d →
  let old := get_state c id in
  let new := get_state (after_event c event) id in
  (∀ k v, k ≠ "state" → d !! k = Some v → new !! k = Some v) ∧
  (∀ k, k ≠ "state" → d !! k = None → new !! k = old !! k) ∧
  (∀ k, is_Some (old !! k) ∨ is_Some (d !! k) → is_Some (new !! k)).
Proof.
  intros Hid Hdev Hd old new.
  assert (Hne : ∀ k, k ≠ "state" → new !! k = (d ∪ old) !! k).
  { intros k Hk.
    destruct (snapshot_after_mapping c event id dev d Hid Hdev Hd)
      as [[_ H]|[_ H]].
    - fold new old in H. rewrite H. by apply th_merge_lookup_ne.
    - by apply (general_merge_lookup_ne old d). }
  assert (Hst : is_Some ((d ∪ old) !! "state") → is_Some (new !! "state")).
  { destruct (snapshot_after_mapping c event id dev d Hid Hdev Hd)
      as [[_ H]|[_ H]].
    - fold new old in H. rewrite H. apply th_merge_state_kept.
    - by apply (general_merge_state_kept old d). }
  split; [|split].
  - intros k v Hk Hv. rewrite (Hne k Hk). by apply lookup_union_Some_l.
  - intros k Hk Hv. by rewrite (Hne k Hk), lookup_union_r.
  - intros k Hsome.
    assert (is_Some ((d ∪ old) !! k)) as Hu.
    { apply lookup_union_is_Some. tauto. }
    destruct (decide (k = "state")) as [->|Hk]; [by apply Hst|].
    by rewrite (Hne k Hk).
Qed.

(** X4: on a THSensor device, a field of the nested [state] mapping that
    the report mentions neither at top level nor in its own nested [state]
    keeps its value: a partial report does not drop diagnostic fields. *)
Theorem th_unreported_field_survives c event id dev d es f x :
  ev_device_id event = VStr id →
  _devices c !! id = Some dev →
  device_type dev = "THSensor" →
  ev_data event = VDict d →
  get_state c id !! "state" = Some (VDict es) →
  es !! f = Some x →
  f ≠ "state" →
  d !! f = None →
  (∀ ds, d !! "state" = Some (VDict ds) → ds !! f = None) →
  ∃ m, get_state (after_event c event) id !! "state"
         = Some (VDict m) ∧ m !! f = Some x.
Proof.
  intros Hid Hdev Hty Hd Hes Hx Hf Hflat Hnested.
  rewrite (snapshot_after_th _ _ _ _ Hid Hdev Hty), Hd. unfold th_merge.
  set (e := get_state c id) in *.
  assert (Hm : th_fold d (th_state_obj e d) !! f = Some x).
  { rewrite th_fold_lookup, Hflat.
    unfold th_state_obj, Py.get. rewrite Hes. simpl.
    destruct (d !! "state") as [so|] eqn:Hso; simpl; [|done].
    destruct so; simpl; try by rewrite lookup_insert_ne.
    - done.
    - by rewrite lookup_union, (Hnested _ eq_refl), Hx. }
  rewrite bool_decide_eq_false_2.
  2:{ intros Hemp. rewrite Hemp, lookup_empty in Hm. done. }
  eexists. rewrite lookup_insert_eq. split; [reflexivity|exact Hm].
Qed.

(** On data that is no mapping, or an empty one, the THSensor merge
    returns the snapshot it was given. *)
Lemma th_merge_nothing e data :
  Py.is_dict data = false ∨ data = VDict ∅ → th_merge e data = e.
Proof.
  intros Hdata.
  assert (th_merge e data = th_merge e (VDict ∅)) as ->.
  { destruct Hdata as [H| ->]; [by apply th_merge_not_dict|done]. }
  rewrite th_merge_dict. cbv zeta. unfold th_fold.
  rewrite map_fold_empty, !th_state_obj_nested.
  unfold Py.get. rewrite lookup_empty. cbn [default].
  rewrite !(left_id_L ∅ (∪)).
  destruct (e !! "state") as [[]|] eqn:He; cbn [default];
    rewrite ?bool_decide_eq_true_2 by done; try done.
  case_bool_decide; [done|]. by apply insert_id.
Qed.

(** X5: a report without content.  On a THSensor device data that is no
    mapping, or an empty one, leaves the snapshot as it was and is still
    dispatched; on another family the empty mapping does the same, and data
    that is no mapping raises [TypeError]. *)
Theorem report_without_content c event id dev :
  ev_device_id event = VStr id →
  _devices c !! id = Some dev →
  (device_type dev = "THSensor" →
   Py.is_dict (ev_data event) = false ∨ ev_data event = VDict ∅ →
   ∃ c', _on_device_event c event = Ok c' ∧
         get_state c' id = get_state c id ∧
         dispatched c' = _states c' :: dispatched c) ∧
  (device_type dev ≠ "THSensor" →
   ev_data event = VDict ∅ →
   ∃ c', _on_device_event c event = Ok c' ∧
         get_state c' id = get_state c id ∧
         dispatched c' = _states c' :: dispatched c) ∧
  (device_type dev ≠ "THSensor" →
   Py.is_dict (ev_data event) = false →
   _on_device_event c event = Raise TypeError).
Proof.
  intros Hid Hdev. unfold _on_device_event. rewrite Hid.
  cbn [Py.hashable negb]. rewrite Hdev. split; [|split].
  - intros -> Hdata. simpl. eexists. split; [reflexivity|].
    unfold get_state at 1. simpl. rewrite lookup_insert_eq. simpl.
    split; [by apply th_merge_nothing|done].
  - intros Hne%String.eqb_neq ->. rewrite Hne. simpl.
    unfold Py.overlay. rewrite (left_id_L ∅ _), lookup_empty.
    assert (Hm : match get_state c id !! "state" with
                 | Some _ | _ => get_state c id
                 end = get_state c id) by by case_match.
    rewrite Hm. eexists. split; [reflexivity|].
    unfold get_state at 1. simpl. by rewrite lookup_insert_eq.
  - intros Hne%String.eqb_neq Hnd. rewrite Hne.
    by destruct (ev_data event).
Qed.
End HandlerInvariants.

(** ** Entities reading the store *)

Section EntityFacts.
Import DeviceModel Coordinator Reading.
Implicit Types (c : coordinator) (event : DeviceEvent) (id : string).
Implicit Types (e d m n : pydict) (k : string) (v : value).

(** The general merge hands a reported state on to the snapshot. *)
Lemma general_merge_reports_state e d n x :
  general_merge e (VDict d) = Ok n → reports_state d x → reports_state n x.
Proof.
  unfold general_merge, reports_state, Py.overlay. intros [= <-] Hd.
  destruct Hd as [Hd|(s & Hd & Hs)]; rewrite Hd.
  - destruct (e !! "state") as [[]|] eqn:He.
    all: try (left; by apply lookup_union_Some_l).
    right. eexists. rewrite lookup_insert_eq. split; [done|].
    by rewrite lookup_insert_eq.
  - right. destruct (e !! "state") as [[]|] eqn:He.
    all: try (exists s; split; [by rewrite lookup_insert_eq|done]).
    + eexists. rewrite lookup_insert_eq. split; [done|].
      by apply lookup_union_Some_l.
    + exists s. split; [by apply lookup_union_Some_l|done].
Qed.

Lemma general_merge_without_state e d n :
  general_merge e (VDict d) = Ok n → d !! "state" = None →
  n !! "state" = e !! "state".
Proof.
  unfold general_merge, Py.overlay. intros [= <-] Hd. rewrite Hd.
  destruct (e !! "state") eqn:He; by rewrite lookup_union_r.
Qed.

Lemma is_locked_reports snapshot x :
  reports_state snapshot x →
  Lock.is_locked snapshot = Some (String.eqb x "locked").
Proof.
  unfold Lock.is_locked, Py.get.
  by intros [->|(nested & -> & Hn)]; simpl; [|rewrite Hn].
Qed.

Lemma is_on_reports device_type snapshot x :
  reports_state snapshot x →
  BinarySensor.is_on device_type snapshot
  = Some (String.eqb x (BinarySensor.on_state device_type)).
Proof.
  unfold BinarySensor.is_on, Py.get, Py.get_or.
  by intros [->|(nested & -> & Hn)]; simpl; [|rewrite Hn].
Qed.

(** X6: after an event on a Lock device that reports a state string,
    bare or nested, [is_locked] is whether that string is "locked"; an
    event without [state] leaves the reading as it was. *)
Theorem lock_reads_reported_state c event id dev d :
  ev_device_id event = VStr id →
  _devices c !! id = Some dev →
  device_type dev = "Lock" →
  ev_data event = VDict d →
  let old := get_state c id in
  let new := get_state (after_event c event) id in
  (∀ x, reports_state d x →
        Lock.is_locked new = Some (String.eqb x "locked")) ∧
  (d !! "state" = None → Lock.is_locked new = Lock.is_locked old).
Proof.
  intros Hid Hdev Hty Hd old new.
  destruct (snapshot_after_mapping c event id dev d Hid Hdev Hd)
    as [[H _]|[_ Hm]].
  { rewrite Hty in H. discriminate. }
  fold old new in Hm. split.
  - intros x Hx. apply is_locked_reports.
    by apply (general_merge_reports_state old d).
  - intros Hnone. unfold Lock.is_locked, Py.get.
    by rewrite (general_merge_without_state old d new Hm Hnone).
Qed.

(** X7: after an event on a door, leak, motion or vibration sensor that
    reports a state string, bare or nested, [is_on] is whether that string
    is the family's on-state; an event without [state] leaves the reading
    as it was. *)
Theorem binary_sensor_reads_reported_state c event id dev d :
  ev_device_id event = VStr id →
  _devices c !! id = Some dev →
  device_type dev ∈ BinarySensor.DEVICE_TYPE_TO_CLASS →
  ev_data event = VDict d →
  let old := get_state c id in
  let new := get_state (after_event c event) id in
  (∀ x, reports_state d x →
        BinarySensor.is_on (device_type dev) new
        = Some (String.eqb x (BinarySensor.on_state (device_type dev)))) ∧
  (d !! "state" = None →
   BinarySensor.is_on (device_type dev) new
   = BinarySensor.is_on (device_type dev) old).
Proof.
  intros Hid Hdev Hty Hd old new.
  destruct (snapshot_after_mapping c event id dev d Hid Hdev Hd)
    as [[H _]|[_ Hm]].
  { rewrite H in Hty. exfalso. revert Hty.
    unfold BinarySensor.DEVICE_TYPE_TO_CLASS.
    rewrite !elem_of_cons, elem_of_nil. intros [?|[?|[?|[?|[]]]]]; discriminate. }
  fold old new in Hm. split.
  - intros x Hx. apply is_on_reports.
    by apply (general_merge_reports_state old d).
  - intros Hnone. unfold BinarySensor.is_on, Py.get_or.
    by rewrite (general_merge_without_state old d new Hm Hnone).
Qed.

(** X8: after a THSensor report that carries a non-null value for a
    field, flat at top level or, failing that, inside its nested [state],
    the sensors that read the field (temperature, humidity, firmware,
    interval) return that value. *)
Theorem th_sensor_reads_report c event id dev d k v :
  ev_device_id event = VStr id →
  _devices c !! id = Some dev →
  device_type dev = "THSensor" →
  ev_data event = VDict d →
  k ∉ th_reserved →
  v ≠ VNone →
  d !! k = Some v ∨
  (d !! k = None ∧ ∃ ds, d !! "state" = Some (VDict ds) ∧ ds !! k = Some v) →
  Sensor.nested_or_flat k (get_state (after_event c event) id) = v.
Proof.
  intros Hid Hdev Hty Hd Hres Hv Hrep.
  assert (Hnn : Py.is_none v = false) by by destruct v.
  rewrite (snapshot_after_th _ _ _ _ Hid Hdev Hty), Hd. unfold th_merge.
  set (e := get_state c id).
  assert (Hm : th_fold d (th_state_obj e d) !! k = Some v).
  { rewrite th_fold_lookup.
    destruct Hrep as [Hk|(Hk & ds & Hs & Hds)]; rewrite Hk.
    - rewrite bool_decide_eq_false_2 by done. rewrite Hnn. simpl. reflexivity.
    - unfold th_state_obj. unfold Py.get at 1. rewrite Hs. simpl.
      by apply lookup_union_Some_l. }
  rewrite bool_decide_eq_false_2.
  2:{ intros Hemp. rewrite Hemp, lookup_empty in Hm. done. }
  unfold Sensor.nested_or_flat, Py.get_or. rewrite lookup_insert_eq. simpl.
  unfold Py.get at 1. rewrite Hm. simpl.
  rewrite Hnn. unfold Py.get. by rewrite Hm.
Qed.
End EntityFacts.

Section PlatformFacts.
Import DeviceModel.

(** X9: the battery sensor shows 0 when the entity is unavailable, and
    nothing when the snapshot has no [state]; for an integer level it shows
    25 times the level up to level 4 and 100 from there on, never more
    than 100. *)
Theorem battery_native_value_bounds (float_mul : Q → Q → Q)
    (device_state : pydict) :
  Sensor.battery_native_value float_mul false device_state = Ok (VInt 0) ∧
  (device_state !! "state" = None →
   Sensor.battery_native_value float_mul true device_state = Ok VNone) ∧
  (∀ n : Z,
     (∃ s, device_state !! "state" = Some (VDict s) ∧
           s !! "battery" = Some (VInt n)) ∨
     (∃ sv, device_state !! "state" = Some sv ∧ Py.is_dict sv = false ∧
            device_state !! "battery" = Some (VInt n)) →
     ∃ p, Sensor.battery_native_value float_mul true device_state = Ok (VInt p) ∧
          p ≤ 100 ∧
          (n ≤ 4 → p = 25 * n) ∧
          (4 ≤ n → p = 100)).
Proof.
  unfold Sensor.battery_native_value, Py.get_or, Py.get. simpl.
  split; [done|]. split.
  - intros ->. simpl. by rewrite lookup_empty.
  - intros n [(s & -> & Hs)|(sv & -> & Hsv & Hb)]; simpl.
    + rewrite Hs. simpl. eexists. split; [reflexivity|]. lia.
    + destruct sv; try discriminate; rewrite Hb; simpl;
        (eexists; split; [reflexivity|lia]).
Qed.


Lemma NoDup_with_prefix (prefix : string) (suffixes : list string) :
  NoDup suffixes → NoDup (String.append prefix <$> suffixes).
Proof. apply NoDup_fmap_2. apply _. Qed.

(** X11: the sensor entities created for one device have pairwise
    distinct unique identifiers, whatever the device. *)
Theorem sensor_unique_ids_distinct (device : Device) :
  NoDup (Sensor.unique_id device <$> Sensor.entities_for device).
Proof.
  unfold Sensor.unique_id.
  rewrite (list_fmap_compose Sensor.unique_id_suffix
             (String.append (device_id device))).
  apply NoDup_with_prefix.
  unfold Sensor.entities_for.
  repeat case_match; by apply (bool_decide_unpack _).
Qed.

Lemma append_empty_r (s : string) : s +:+ "" = s.
Proof.
  induction s as [|a s IH]; [done|].
  change (String a (s +:+ "") = String a s). by rewrite IH.
Qed.

(** X12: the binary-sensor entities created for one device have pairwise
    distinct unique identifiers, whatever the device. *)
Theorem binary_sensor_unique_ids_distinct (device : Device) :
  NoDup (BinarySensor.unique_id device <$> BinarySensor.entities_for device).
Proof.
  pose (suffix := λ e,
          match e with
          | BinarySensor.YoLocalBinarySensor => ""
          | BinarySensor.YoLocalTHAlarmSensor t => "_alarm_" +:+ t
          | BinarySensor.YoLocalLeakAlarmSensor t => "_alarm_" +:+ t
          | BinarySensor.YoLocalMotionLEDSensor => "_led_alarm"
          end).
  assert (Hid : BinarySensor.unique_id device <$> BinarySensor.entities_for device
                = String.append (device_id device)
                    <$> (suffix <$> BinarySensor.entities_for device)).
  { rewrite <- list_fmap_compose. apply list_fmap_ext.
    intros _ [] _; simpl; try done. by rewrite append_empty_r. }
  rewrite Hid. apply NoDup_with_prefix.
  unfold BinarySensor.entities_for, suffix.
  repeat case_match; by apply (bool_decide_unpack _).
Qed.

Lemma from_api_device_type data : device_type (from_api data) = r_type data.
Proof. unfold from_api. by repeat case_match. Qed.

(** X13: a THSensor whose identity string carries code 8004 gets the
    temperature entities only, without a unit, humidity or threshold
    entity; code 8003 adds the unit and the humidity entities, but no
    threshold. *)
Theorem th_probe_entities data e :
  r_type data = "THSensor" →
  r_appEui data = Some e →
  (10 ≤ String.length e)%nat →
  (String.substring 6 4 e = "8004" →
   Sensor.entities_for (from_api data) =
     [Sensor.YoLocalBatterySensor; Sensor.YoLocalFirmwareSensor;
      Sensor.YoLocalLastReportedSensor; Sensor.YoLocalTemperatureSensor;
      Sensor.YoLocalTHIntervalSensor;
      Sensor.YoLocalTHCorrectionSensor "temperature"]) ∧
  (String.substring 6 4 e = "8003" →
   Sensor.entities_for (from_api data) =
     [Sensor.YoLocalBatterySensor; Sensor.YoLocalFirmwareSensor;
      Sensor.YoLocalLastReportedSensor; Sensor.YoLocalTemperatureSensor;
      Sensor.YoLocalTHModeSensor; Sensor.YoLocalTHIntervalSensor;
      Sensor.YoLocalTHCorrectionSensor "temperature";
      Sensor.YoLocalHumiditySensor;
      Sensor.YoLocalTHCorrectionSensor "humidity"]).
Proof.
  intros Hty He Hlen.
  destruct (from_api_long data e He Hlen) as [Hmodel Hdisplay].
  cbv zeta in Hmodel, Hdisplay.
  unfold Sensor.entities_for, Sensor.has_threshold_sensors.
  rewrite from_api_device_type, Hmodel, Hdisplay, Hty.
  split; intros ->; reflexivity.
Qed.
End PlatformFacts.

(** ** Messages and subscriptions *)

Section MqttFacts.
Import DeviceModel Coordinator Mqtt.
Implicit Types (c : coordinator) (payload d : pydict).

(** X14: on a payload whose [data] is a mapping, which needs neither
    [reportAt] nor [online] copied in, the integration's [from_payload] and
    the tooling's [normalize_event_payload] read the same identifier and
    the same data. *)
Theorem from_payload_agrees_with_normalizer payload d :
  payload !! "data" = Some (VDict d) →
  is_Some (d !! "reportAt") ∨ Py.truthy (Py.get payload "time") = false →
  is_Some (d !! "online") ∨ payload !! "online" = None →
  raw_device_id (from_payload payload)
  = (Tooling.normalize_event_payload payload).1 ∧
  raw_data (from_payload payload)
  = VDict (Tooling.normalize_event_payload payload).2.
Proof.
  intros Hd Hrep Hon.
  assert (Hg : Py.get payload "data" = VDict d) by (unfold Py.get; by rewrite Hd).
  unfold from_payload, Tooling.normalize_event_payload. cbv zeta.
  rewrite Hg. cbn [Py.is_none andb raw_device_id raw_data fst snd].
  split; [done|]. unfold Py.get_or. rewrite Hd. cbn [default].
  rewrite !contains_spec.
  assert (Hr : (if negb match d !! "reportAt" with Some _ => true | None => false end
                   && Py.truthy (Py.get payload "time")
                then <["reportAt" := Py.get payload "time"]> d else d) = d).
  { destruct Hrep as [[x ->]| ->]; [done|]. by destruct (d !! "reportAt"). }
  rewrite Hr.
  destruct Hon as [[x ->]| ->]; [done|]. by destruct (d !! "online").
Qed.

Lemma general_merge_nothing (e : pydict) : general_merge e (VDict ∅) = Ok e.
Proof.
  unfold general_merge, Py.overlay. rewrite (left_id_L ∅ _), lookup_empty.
  by destruct (e !! "state").
Qed.

(** X15: the integration has no fallback encodings.  For a payload
    addressed to a registered device, the event [from_payload] builds
    carries that identifier.  Without a [data] key its data is the empty
    mapping, whatever [params] or [state] hold: the handler returns
    normally, leaves the device's snapshot as it was and dispatches the
    store.  With a null [data] the event's data is null, and the handler
    raises [TypeError] on a device of another family than THSensor. *)
Theorem payload_without_data c payload id dev :
  payload !! "deviceId" = Some (VStr id) →
  _devices c !! id = Some dev →
  let event := as_event (from_payload payload) in
  ev_device_id event = VStr id ∧
  (payload !! "data" = None →
   ev_data event = VDict ∅ ∧
   ∃ c', _on_device_event c event = Ok c' ∧
         get_state c' id = get_state c id ∧
         dispatched c' = _states c' :: dispatched c) ∧
  (payload !! "data" = Some VNone →
   device_type dev ≠ "THSensor" →
   ev_data event = VNone ∧
   _on_device_event c event = Raise TypeError).
Proof.
  intros Hid Hdev event.
  assert (Hev : ev_device_id event = VStr id).
  { subst event. unfold as_event, from_payload, Py.get_or. simpl.
    by rewrite Hid. }
  split; [exact Hev|].
  destruct (report_without_content c event id dev Hev Hdev)
    as (Hth & Hempty & Hraise).
  split.
  - intros Hdata.
    assert (Hd : ev_data event = VDict ∅).
    { subst event. unfold as_event, from_payload, Py.get_or. simpl.
      by rewrite Hdata. }
    split; [exact Hd|].
    destruct (String.eqb_spec (device_type dev) "THSensor") as [Hty|Hty].
    + apply Hth; [done|by right].
    + by apply Hempty.
  - intros Hdata Hty.
    assert (Hd : ev_data event = VNone).
    { subst event. unfold as_event, from_payload, Py.get_or. simpl.
      by rewrite Hdata. }
    split; [exact Hd|]. apply Hraise; [done|by rewrite Hd].
Qed.

Lemma unsubscribe_app_fresh (callbacks : list nat) cb :
  cb ∉ callbacks →
  unsubscribe callbacks cb = None ∧
  unsubscribe (subscribe callbacks cb) cb = Some callbacks.
Proof.
  unfold subscribe. induction callbacks as [|x l IH]; intros Hnot; simpl.
  - by rewrite decide_True.
  - apply not_elem_of_cons in Hnot as [Hne Hnot].
    destruct (IH Hnot) as [H1 H2].
    destruct (decide (x = cb)) as [->|_]; [done|]. by rewrite H1, H2.
Qed.

(** X16: unsubscribing right after subscribing succeeds and leaves the
    same callbacks, up to order; for a callback that was not subscribed
    before, the list is exactly as it was, and unsubscribing once more
    raises. *)
Theorem unsubscribe_after_subscribe (callbacks : list nat) cb :
  (∃ l, unsubscribe (subscribe callbacks cb) cb = Some l ∧ l ≡ₚ callbacks) ∧
  (cb ∉ callbacks →
   unsubscribe (subscribe callbacks cb) cb = Some callbacks ∧
   unsubscribe callbacks cb = None).
Proof.
  split.
  - unfold subscribe. induction callbacks as [|x l IH]; simpl.
    + rewrite decide_True by done. by exists [].
    + destruct (decide (x = cb)) as [->|Hne].
      * exists (l ++ [cb]). split; [done|].
        symmetry. apply Permutation_cons_append.
      * destruct IH as (l' & -> & Hp). exists (x :: l').
        split; [done|]. by apply Permutation_skip.
  - intros Hnot. by destruct (unsubscribe_app_fresh callbacks cb Hnot).
Qed.
End MqttFacts.

(** ** The store after start-up *)

Section StartupStore.
Import DeviceModel Coordinator Startup Reading.
Implicit Types (h : hub) (w : world).




End StartupStore.

(** ** More on the standalone tooling *)

Section ToolingMerge.
Import Coordinator Tooling Reading.
Implicit Types (e d es m : pydict) (k : string) (v : value).

Lemma reserved_same k : k ∈ merge_reserved ↔ k ∈ th_reserved.
Proof.
  unfold merge_reserved, th_reserved. rewrite !elem_of_cons, !elem_of_nil.
  tauto.
Qed.

Lemma bool_decide_reserved k :
  bool_decide (k ∈ merge_reserved) = bool_decide (k ∈ th_reserved).
Proof. apply bool_decide_ext, reserved_same. Qed.

(** The nested object [merge_state] starts its loop from. *)
Lemma tooling_state_obj e d es :
  e !! "state" = Some (VDict es) →
  match Py.get d "state" with
  | VDict ds => ds ∪ es
  | VNone => es
  | v => <["state" := v]> es
  end = th_state_obj e d.
Proof. intros He. unfold th_state_obj, Py.get. by rewrite He. Qed.

(** [merge_state] on a snapshot whose [state] is a mapping, key by key. *)
Lemma merge_state_mapping e d es :
  e !! "state" = Some (VDict es) →
  let acc := map_fold merge_step (th_state_obj e d, Py.overlay e d) d in
  merge_state e d = <["state" := VDict (acc.1)]> (acc.2).
Proof.
  intros He. rewrite <- (tooling_state_obj e d es He).
  unfold merge_state, Py.get. rewrite He. simpl.
  by destruct (d !! "state") as [[]|].
Qed.

(** Without null readings, both loops fold the same keys. *)
Lemma tooling_fold_is_th_fold d m n :
  (∀ k, k ∈ th_nullable → d !! k ≠ Some VNone) →
  (map_fold merge_step (m, n) d).1 = th_fold d m.
Proof.
  intros Hnull. apply map_eq; intros k.
  destruct (merge_fold_lookup d m n k) as [-> _]. rewrite th_fold_lookup.
  rewrite bool_decide_reserved.
  destruct (d !! k) as [v|] eqn:Hk; [|done].
  destruct (bool_decide (k ∈ th_reserved)); [done|].
  destruct (Py.is_none v && bool_decide (k ∈ th_nullable)) eqn:Hb; [|done].
  apply andb_true_iff in Hb as [Hv Hin]. apply bool_decide_eq_true in Hin.
  destruct v; try discriminate. by destruct (Hnull k Hin).
Qed.

(** X18: when the existing [state] is a mapping, the report's [state] is
    not null and it carries no null temperature, humidity, mode or version,
    the tooling's [merge_state] and the integration's THSensor merge build
    the same nested [state], and agree on every top-level key that the
    report does not carry flat. *)
Theorem tooling_merge_matches_th_merge e d es :
  e !! "state" = Some (VDict es) →
  d !! "state" ≠ Some VNone →
  (∀ k, k ∈ th_nullable → d !! k ≠ Some VNone) →
  merge_state e d !! "state" = th_merge e (VDict d) !! "state" ∧
  (∀ k, k ≠ "state" → d !! k = None ∨ k ∈ merge_reserved →
        merge_state e d !! k = th_merge e (VDict d) !! k).
Proof.
  intros He Hstate Hnull.
  rewrite (merge_state_mapping e d es He). cbv zeta.
  split.
  - rewrite lookup_insert_eq, (tooling_fold_is_th_fold d _ _ Hnull).
    unfold th_merge. case_bool_decide as Hemp; [|by rewrite lookup_insert_eq].
    rewrite Hemp. rewrite th_fold_union in Hemp.
    apply dict_union_empty_r in Hemp.
    unfold Py.overlay. rewrite lookup_union.
    revert Hemp. unfold th_state_obj, Py.get. rewrite He. simpl.
    destruct (d !! "state") as [[]|]; simpl; try done.
    all: try (by intros ?%insert_non_empty).
    + intros Hu. pose proof (map_positive_l _ _ Hu) as ->.
      by rewrite (left_id_L ∅ (∪)) in Hu; subst.
    + by intros ->.
  - intros k Hk Hflat. rewrite lookup_insert_ne by done.
    destruct (merge_fold_lookup d (th_state_obj e d) (Py.overlay e d) k)
      as [_ ->].
    rewrite (th_merge_lookup_ne e d k Hk). unfold Py.overlay.
    destruct Hflat as [->|Hres]; [done|].
    rewrite bool_decide_eq_true_2 by done. by destruct (d !! k).
Qed.

(** The nested object of [merge_state], key by key. *)
Lemma merge_state_nested_lookup e d es :
  e !! "state" = Some (VDict es) →
  ∃ m, merge_state e d !! "state" = Some (VDict m) ∧
       ∀ k, m !! k =
              match d !! k with
              | Some v =>
                  if bool_decide (k ∈ merge_reserved)
                  then th_state_obj e d !! k else Some v
              | None => th_state_obj e d !! k
              end.
Proof.
  intros He. rewrite (merge_state_mapping e d es He). cbv zeta.
  eexists. rewrite lookup_insert_eq. split; [reflexivity|].
  intros k.
  by destruct (merge_fold_lookup d (th_state_obj e d) (Py.overlay e d) k)
    as [-> _].
Qed.

(** The top level of [merge_state], key by key. *)
Lemma merge_state_top_lookup e d es k :
  e !! "state" = Some (VDict es) → k ≠ "state" →
  merge_state e d !! k =
    match d !! k with
    | Some v => if bool_decide (k ∈ merge_reserved) then Some v else None
    | None => e !! k
    end.
Proof.
  intros He Hk. rewrite (merge_state_mapping e d es He). cbv zeta.
  rewrite lookup_insert_ne by done.
  destruct (merge_fold_lookup d (th_state_obj e d) (Py.overlay e d) k)
    as [_ ->].
  unfold Py.overlay. rewrite lookup_union.
  destruct (d !! k); [|by rewrite (left_id_L None _)].
  by destruct (bool_decide _), (e !! k).
Qed.

(** X19: on a snapshot whose [state] is a mapping, merging the same event
    data twice with [merge_state] gives what merging it once gives. *)
Theorem merge_state_idempotent_on_mapping e d es :
  e !! "state" = Some (VDict es) →
  merge_state (merge_state e d) d = merge_state e d.
Proof.
  intros He.
  destruct (merge_state_nested_lookup e d es He) as (m & Hm & Hlook).
  destruct (merge_state_nested_lookup (merge_state e d) d m Hm)
    as (m' & Hm' & Hlook').
  apply map_eq; intros k.
  destruct (decide (k = "state")) as [->|Hk].
  - rewrite Hm', Hm. do 2 f_equal. apply map_eq; intros f.
    rewrite Hlook', Hlook.
    assert (Hobj : d !! f = None ∨ f ∈ merge_reserved →
                   th_state_obj (merge_state e d) d !! f
                   = th_state_obj e d !! f).
    { intros Hf.
      assert (Hmf : m !! f = th_state_obj e d !! f).
      { rewrite Hlook. destruct Hf as [->|Hf]; [done|].
        rewrite bool_decide_eq_true_2 by done. by destruct (d !! f). }
      revert Hmf. unfold th_state_obj, Py.get. rewrite Hm, He. simpl.
      destruct (d !! "state") as [[]|] eqn:Hs; simpl; try done.
      all: try (intros Hmf; destruct (decide (f = "state")) as [->|Hne];
            [by rewrite !lookup_insert_eq|
             by rewrite lookup_insert_ne, Hmf by done]).
      rewrite !lookup_union. intros ->.
      by destruct (d0 !! f), (es !! f). }
    destruct (d !! f) as [v|] eqn:Hdf; [|by apply Hobj; left].
    case_bool_decide as Hres; [|done]. by apply Hobj; right.
  - rewrite (merge_state_top_lookup _ d m k Hm Hk).
    rewrite (merge_state_top_lookup e d es k He Hk).
    by repeat case_match.
Qed.
End ToolingMerge.

(** ** The watcher and the listing script *)

Section ScriptFacts.
Import DeviceModel Coordinator Tooling Scripts Reading.
Implicit Types (e d es m payload : pydict) (k : string) (v : value).

(** [merge_state] on a snapshot without a nested state mapping. *)
Lemma merge_state_flat e d :
  Py.is_dict (Py.get e "state") = false →
  merge_state e d =
    match Py.get d "state" with
    | VDict ds => <["state" := VDict ds]> (Py.overlay e d)
    | _ => Py.overlay e d
    end.
Proof. unfold merge_state. by destruct (Py.get e "state"). Qed.

(** X20: when the existing snapshot has no nested [state] mapping,
    [merge_state] folds nothing: every key but [state] is the plain
    overlay; and unless the event brings a nested mapping, [extract_th]
    reads no temperature and no humidity from the result. *)
Theorem merge_state_without_nested_state e d :
  Py.is_dict (Py.get e "state") = false →
  (∀ k, k ≠ "state" → merge_state e d !! k = (d ∪ e) !! k) ∧
  (Py.is_dict (Py.get d "state") = false →
   extract_th (merge_state e d)
   = {[ "temperature" := VNone; "humidity" := VNone ]}).
Proof.
  intros He. rewrite (merge_state_flat e d He). unfold Py.overlay. split.
  - intros k Hk. destruct (Py.get d "state"); by rewrite ?lookup_insert_ne.
  - intros Hd.
    assert (Hs : Py.is_dict (Py.get (d ∪ e) "state") = false).
    { revert He Hd. unfold Py.get. rewrite lookup_union.
      by destruct (d !! "state"), (e !! "state"). }
    destruct (Py.get d "state"); try discriminate;
      unfold extract_th; by destruct (Py.get (d ∪ e) "state").
Qed.

(** [normalize_event_payload] on a payload whose [data] is a mapping:
    only [reportAt] and [online] may be added. *)
Lemma normalize_data_mapping payload d k :
  payload !! "data" = Some (VDict d) →
  k ≠ "reportAt" → k ≠ "online" →
  (normalize_event_payload payload).2 !! k = d !! k.
Proof.
  intros Hd Hr Ho.
  assert (Hg : Py.get payload "data" = VDict d) by (unfold Py.get; by rewrite Hd).
  unfold normalize_event_payload. cbv zeta.
  rewrite Hg. cbn [Py.is_none andb snd].
  repeat case_match; by rewrite ?lookup_insert_ne.
Qed.

Lemma normalize_device_id payload :
  (normalize_event_payload payload).1 = Py.get_or payload "deviceId" (VStr "").
Proof. done. Qed.

(** X21: the watcher ignores messages for other devices; for its own
    device, a temperature or humidity in the [data] mapping of the message
    is what [extract_th] reads afterwards, once the current state has a
    nested mapping. *)
Theorem watcher_follows_its_device device_id (current payload : pydict) :
  (Py.get_or payload "deviceId" (VStr "") ≠ VStr device_id →
   on_message device_id current payload = current) ∧
  (∀ d es k v,
     payload !! "deviceId" = Some (VStr device_id) →
     payload !! "data" = Some (VDict d) →
     current !! "state" = Some (VDict es) →
     k = "temperature" ∨ k = "humidity" →
     d !! k = Some v →
     extract_th (on_message device_id current payload) !! k = Some v).
Proof.
  unfold on_message.
  destruct (normalize_event_payload payload) as [event_device_id event_data]
    eqn:Hn.
  pose proof (normalize_device_id payload) as Hid. rewrite Hn in Hid.
  simpl in Hid. subst event_device_id. split.
  - intros Hne. destruct (Py.get_or payload "deviceId" (VStr "")) eqn:Hg;
      simpl; try done.
    destruct (String.eqb_spec s device_id) as [->|]; [done|done].
  - intros d es k v Hdev Hd Hcur Hk Hv.
    unfold Py.get_or. rewrite Hdev. simpl. rewrite String.eqb_refl. simpl.
    assert (Hdk : event_data !! k = Some v).
    { replace event_data with (normalize_event_payload payload).2
        by by rewrite Hn.
      rewrite (normalize_data_mapping payload d k Hd); [done|..];
        by destruct Hk as [-> | ->]. }
    destruct (merge_state_nested_lookup current event_data es Hcur)
      as (m & Hm & Hlook).
    unfold extract_th, Py.get at 1. rewrite Hm. simpl.
    assert (Hmk : m !! k = Some v).
    { rewrite Hlook, Hdk. rewrite bool_decide_eq_false_2; [done|].
      unfold merge_reserved. rewrite !elem_of_cons, elem_of_nil.
      by destruct Hk as [-> | ->]; intros [?|[?|[?|[]]]]. }
    unfold Py.get. destruct Hk as [-> | ->]; rewrite Hmk; reflexivity.
Qed.

(** X22: after [merge_state] with event data that report a state string,
    bare or nested, [extract_motion] reads that string, whatever the
    snapshot was. *)
Theorem watcher_reads_reported_state e d x :
  reports_state d x → extract_motion (merge_state e d) = Some x.
Proof.
  intros Hd. unfold extract_motion.
  destruct (Py.is_dict (Py.get e "state")) eqn:He.
  - destruct (Py.get e "state") as [| | | | | |es] eqn:Hg; try discriminate.
    assert (Hes : e !! "state" = Some (VDict es)).
    { revert Hg. unfold Py.get. by destruct (e !! "state") as [[]|]; intros [=->]. }
    destruct (merge_state_nested_lookup e d es Hes) as (m & Hm & Hlook).
    unfold Py.get at 1. rewrite Hm. simpl.
    assert (Hms : m !! "state" = Some (VStr x)).
    { rewrite Hlook. unfold th_state_obj, Py.get. rewrite Hes. simpl.
      destruct Hd as [Hd|(s & Hd & Hs)]; rewrite Hd; simpl.
      - by rewrite lookup_insert_eq.
      - by apply lookup_union_Some_l. }
    unfold Py.get. by rewrite Hms.
  - rewrite (merge_state_flat e d He). unfold Py.overlay, Py.get.
    destruct Hd as [Hd|(s & Hd & Hs)]; rewrite Hd; simpl.
    + by rewrite (lookup_union_Some_l _ _ _ _ Hd).
    + rewrite lookup_insert_eq. simpl. by rewrite Hs.
Qed.

(** X23: for a device record with a non-empty type, the row the listing
    script prints holds the display type and the model that [from_api]
    derives, with "Unknown" for no model. *)
Theorem device_row_matches_from_api data :
  r_type data ≠ "" →
  device_row (Some (r_type data)) (r_appEui data)
  = (display_type (from_api data), default "Unknown" (model (from_api data))).
Proof.
  intros Hty%String.eqb_neq. unfold device_row. rewrite Hty.
  cbv beta iota zeta.
  destruct (r_appEui data) as [e|] eqn:He; cbn [default from_option id].
  2:{ destruct (from_api_short data) as [-> ->]; [by rewrite He|]. done. }
  assert (Hd : normalize_display_type (r_type data) (Some e)
               = display_type (from_api data)).
  { rewrite <- He. apply normalize_display_type_from_api. }
  rewrite Hd. f_equal.
  unfold model_num_from_app_eui.
  destruct (le_lt_dec 10 (String.length e)) as [Hlen|Hlen].
  - destruct (from_api_long data e He Hlen) as [-> _].
    rewrite (long_not_empty _ Hlen), (proj2 (Nat.leb_le _ _) Hlen).
    cbn [negb andb default from_option id]. unfold Py.slice. change (10 - 6)%nat with 4%nat.
    assert (Hne : String.eqb (String.substring 6 4 e) "" = false).
    { apply String.eqb_neq. intros Hempty.
      pose proof (length_substring 6 4 e ltac:(lia)) as Hl.
      rewrite Hempty in Hl. discriminate. }
    by rewrite Hne.
  - destruct (from_api_short data) as [-> _]; [by rewrite He|].
    by rewrite (proj2 (Nat.leb_gt _ _) Hlen), andb_false_r.
Qed.
End ScriptFacts.

(** ** Further worked examples *)

Section MoreExamples.
Import DeviceModel Coordinator Startup Tooling Reading Samples Fixtures.


(** A bare string sent to a door sensor, and a report whose identifier
    is a list. *)
Lemma handler_raises_exactly_when_witness :
  _on_device_event home bare_alert_report = Raise TypeError ∧
  _on_device_event home listed_id_report = Raise TypeError.
Proof.
  split.
  - apply (proj2 (handler_raises_exactly_when home bare_alert_report
                    TypeError)).
    split; [reflexivity|]. right. split; [reflexivity|].
    exists "door1", door_device.
    split; [reflexivity|]. split; [reflexivity|discriminate].
  - apply (proj2 (handler_raises_exactly_when home listed_id_report
                    TypeError)).
    split; [reflexivity|]. left. reflexivity.
Defined.

Lemma merge_keeps_every_key_witness :
  let old := get_state home "door1" in
  let new := get_state (after_event home door_battery_report) "door1" in
  (∀ k v, k ≠ "state" →
     ({[ "state" := VDict {[ "battery" := VInt 4 ]} ]} : pydict) !! k = Some v →
     new !! k = Some v) ∧
  (∀ k, k ≠ "state" →
     ({[ "state" := VDict {[ "battery" := VInt 4 ]} ]} : pydict) !! k = None →
     new !! k = old !! k) ∧
  (∀ k, is_Some (old !! k) ∨
        is_Some (({[ "state" := VDict {[ "battery" := VInt 4 ]} ]} : pydict) !! k) →
        is_Some (new !! k)).
Proof.
  apply (merge_keeps_every_key home door_battery_report "door1" door_device
           {[ "state" := VDict {[ "battery" := VInt 4 ]} ]});
    reflexivity.
Defined.

(** A flat humidity over a nested state with temperature and version: the
    version stays. *)
Lemma th_unreported_field_survives_witness :
  ∃ m, get_state (after_event home_th humidity_report) "th1" !! "state"
         = Some (VDict m) ∧ m !! "version" = Some (VStr "1.2").
Proof.
  apply (th_unreported_field_survives home_th humidity_report "th1"
           th_device humidity_data th_known_state "version" (VStr "1.2")).
  - reflexivity.
  - reflexivity.
  - reflexivity.
  - reflexivity.
  - vm_compute. reflexivity.
  - vm_compute. reflexivity.
  - discriminate.
  - vm_compute. reflexivity.
  - intros ds H. vm_compute in H. discriminate.
Defined.

Lemma report_without_content_witness :
  (∃ c', _on_device_event home bare_th_report = Ok c' ∧
         get_state c' "th1" = get_state home "th1" ∧
         dispatched c' = _states c' :: dispatched home) ∧
  (∃ c', _on_device_event home empty_door_report = Ok c' ∧
         get_state c' "door1" = get_state home "door1" ∧
         dispatched c' = _states c' :: dispatched home) ∧
  _on_device_event home bare_alert_report = Raise TypeError.
Proof.
  split; [|split].
  - refine (proj1 (report_without_content home bare_th_report "th1"
                     th_device _ _) _ _);
      [reflexivity|reflexivity|reflexivity|by left].
  - refine (proj1 (proj2 (report_without_content home empty_door_report
                            "door1" door_device _ _)) _ _);
      [reflexivity|reflexivity|discriminate|reflexivity].
  - refine (proj2 (proj2 (report_without_content home bare_alert_report
                            "door1" door_device _ _)) _ _);
      [reflexivity|reflexivity|discriminate|reflexivity].
Defined.

Lemma lock_reads_reported_state_witness :
  Lock.is_locked (get_state (after_event home_lock lock_report) "lock1")
  = Some true.
Proof.
  refine (proj1 (lock_reads_reported_state home_lock lock_report "lock1"
                   lock_device lock_data _ _ _ _) "locked" _).
  - reflexivity.
  - reflexivity.
  - reflexivity.
  - reflexivity.
  - left. vm_compute. reflexivity.
Defined.

Lemma binary_sensor_reads_reported_state_witness :
  BinarySensor.is_on "DoorSensor"
    (get_state (after_event home door_open_report) "door1")
  = Some true.
Proof.
  refine (proj1 (binary_sensor_reads_reported_state home door_open_report
                   "door1" door_device door_open_data _ _ _ _) "open" _).
  - reflexivity.
  - reflexivity.
  - apply list_elem_of_here.
  - reflexivity.
  - left. vm_compute. reflexivity.
Defined.

Lemma th_sensor_reads_report_witness :
  Sensor.humidity_native_value
    (get_state (after_event home_th humidity_report) "th1")
  = VInt 55.
Proof.
  apply (th_sensor_reads_report home_th humidity_report "th1" th_device
           humidity_data "humidity" (VInt 55)).
  - reflexivity.
  - reflexivity.
  - reflexivity.
  - reflexivity.
  - unfold th_reserved. rewrite !elem_of_cons, elem_of_nil.
    intros [?|[?|[?|[]]]]; discriminate.
  - discriminate.
  - left. vm_compute. reflexivity.
Defined.

Lemma battery_native_value_bounds_witness :
  ∃ p, Sensor.battery_native_value no_float_mul true battery_state
       = Ok (VInt p) ∧
       p ≤ 100 ∧ (3 ≤ 4 → p = 25 * 3) ∧ (4 ≤ 3 → p = 100).
Proof.
  refine (proj2 (proj2 (battery_native_value_bounds no_float_mul battery_state))
            3 _).
  left. exists {[ "battery" := VInt 3 ]}. split; vm_compute; reflexivity.
Defined.


Lemma th_probe_entities_witness :
  Sensor.entities_for (from_api temp_probe_discovery) =
    [Sensor.YoLocalBatterySensor; Sensor.YoLocalFirmwareSensor;
     Sensor.YoLocalLastReportedSensor; Sensor.YoLocalTemperatureSensor;
     Sensor.YoLocalTHIntervalSensor;
     Sensor.YoLocalTHCorrectionSensor "temperature"] ∧
  Sensor.entities_for (from_api lcd_discovery) =
    [Sensor.YoLocalBatterySensor; Sensor.YoLocalFirmwareSensor;
     Sensor.YoLocalLastReportedSensor; Sensor.YoLocalTemperatureSensor;
     Sensor.YoLocalTHModeSensor; Sensor.YoLocalTHIntervalSensor;
     Sensor.YoLocalTHCorrectionSensor "temperature";
     Sensor.YoLocalHumiditySensor;
     Sensor.YoLocalTHCorrectionSensor "humidity"].
Proof.
  split.
  - refine (proj1 (th_probe_entities temp_probe_discovery "d88b4c8004000000"
                     _ _ _) _); [reflexivity|reflexivity|simpl; lia|reflexivity].
  - refine (proj2 (th_probe_entities lcd_discovery "d88b4c8003000000"
                     _ _ _) _); [reflexivity|reflexivity|simpl; lia|reflexivity].
Defined.

Lemma from_payload_agrees_with_normalizer_witness :
  Mqtt.raw_device_id (Mqtt.from_payload door_payload)
  = (normalize_event_payload door_payload).1 ∧
  Mqtt.raw_data (Mqtt.from_payload door_payload)
  = VDict (normalize_event_payload door_payload).2.
Proof.
  apply (from_payload_agrees_with_normalizer door_payload door_open_data).
  - vm_compute. reflexivity.
  - right. vm_compute. reflexivity.
  - right. vm_compute. reflexivity.
Defined.

(** A report that carries its state under [params] changes nothing in the
    integration; a null [data] makes the handler raise. *)
Lemma payload_without_data_witness :
  (ev_data (Mqtt.as_event (Mqtt.from_payload params_payload)) = VDict ∅ ∧
   ∃ c', _on_device_event home
           (Mqtt.as_event (Mqtt.from_payload params_payload)) = Ok c' ∧
         get_state c' "door1" = get_state home "door1" ∧
         dispatched c' = _states c' :: dispatched home) ∧
  (ev_data (Mqtt.as_event (Mqtt.from_payload null_data_payload)) = VNone ∧
   _on_device_event home (Mqtt.as_event (Mqtt.from_payload null_data_payload))
   = Raise TypeError).
Proof.
  split.
  - refine (proj1 (proj2 (payload_without_data home params_payload "door1"
                            door_device _ _)) _); vm_compute; reflexivity.
  - refine (proj2 (proj2 (payload_without_data home null_data_payload "door1"
                            door_device _ _)) _ _);
      first [discriminate | vm_compute; reflexivity].
Defined.

Lemma unsubscribe_after_subscribe_witness :
  Mqtt.unsubscribe (Mqtt.subscribe [1; 2]%nat 3%nat) 3%nat = Some [1; 2]%nat ∧
  Mqtt.unsubscribe [1; 2]%nat 3%nat = None.
Proof.
  apply (proj2 (unsubscribe_after_subscribe [1; 2]%nat 3%nat)).
  rewrite !elem_of_cons, elem_of_nil. intros [?|[?|[]]]; discriminate.
Defined.


Lemma tooling_merge_matches_th_merge_witness :
  merge_state th_snapshot humidity_data !! "state"
  = th_merge th_snapshot (VDict humidity_data) !! "state" ∧
  (∀ k, k ≠ "state" → humidity_data !! k = None ∨ k ∈ merge_reserved →
        merge_state th_snapshot humidity_data !! k
        = th_merge th_snapshot (VDict humidity_data) !! k).
Proof.
  apply (tooling_merge_matches_th_merge th_snapshot humidity_data
           {[ "temperature" := temp_21_5 ]}).
  - vm_compute. reflexivity.
  - vm_compute. discriminate.
  - intros k _ H. unfold humidity_data in H.
    apply lookup_singleton_Some in H as [_ ?]. discriminate.
Defined.

Lemma merge_state_idempotent_on_mapping_witness :
  merge_state (merge_state th_snapshot humidity_data) humidity_data
  = merge_state th_snapshot humidity_data.
Proof.
  apply (merge_state_idempotent_on_mapping th_snapshot humidity_data
           {[ "temperature" := temp_21_5 ]}).
  vm_compute. reflexivity.
Defined.

(** A flat temperature over an empty snapshot stays at top level, out of
    the watcher's sight. *)
Lemma merge_state_without_nested_state_witness :
  (∀ k, k ≠ "state" → merge_state ∅ th_data !! k = (th_data ∪ ∅) !! k) ∧
  (Py.is_dict (Py.get th_data "state") = false →
   Scripts.extract_th (merge_state ∅ th_data)
   = {[ "temperature" := VNone; "humidity" := VNone ]}).
Proof.
  apply (merge_state_without_nested_state ∅ th_data). reflexivity.
Defined.

Lemma watcher_follows_its_device_witness :
  Scripts.on_message "th1" th_snapshot other_payload = th_snapshot ∧
  Scripts.extract_th (Scripts.on_message "th1" th_snapshot th_payload)
    !! "temperature" = Some (VInt 22).
Proof.
  split.
  - refine (proj1 (watcher_follows_its_device "th1" th_snapshot other_payload) _).
    vm_compute. discriminate.
  - refine (proj2 (watcher_follows_its_device "th1" th_snapshot th_payload)
              th_data {[ "temperature" := temp_21_5 ]} "temperature" (VInt 22)
              _ _ _ _ _);
      first [by left | vm_compute; reflexivity].
Defined.

Lemma watcher_reads_reported_state_witness :
  Scripts.extract_motion (merge_state door_snapshot door_open_data)
  = Some "open".
Proof.
  apply (watcher_reads_reported_state door_snapshot door_open_data "open").
  left. vm_compute. reflexivity.
Defined.

Lemma device_row_matches_from_api_witness :
  Scripts.device_row (Some "THSensor") (Some "d88b4c7804000000")
  = ("THSensor", "YS7804-UC").
Proof.
  apply (device_row_matches_from_api sample_discovery). discriminate.
Defined.
End MoreExamples.
